(** * certmgr: a shallow embedding of src/python/certmgr.py and
      src/python/api_server.py

    The certificate manager is a thin layer over the [openssl] binary: it
    lays out directories, renders configuration templates, shells out to
    the tool and parses the CA index file.  The embedding follows the two
    Python files closely:

    - Python strings are [string] (the UTF-8 bytes of the literals);
      [str.replace], [str.strip], [str.split] and [str.lower] are written
      out in module [PyStr] with CPython's semantics ([str.lower] on
      ASCII letters only: no other character lowercases to a letter of
      ["yes"], the one text it is compared with);
    - file contents are bytes; text-mode reads decode them as UTF-8;
    - the file system is a [gmap] from absolute paths (lists of
      components) to file contents, a [gset] of directories and a [gmap]
      of permission bits;
    - effects (printing, reading stdin, running the tool, raising
      exceptions) go through a state-and-exception monad [M] over a
      [world];
    - the [openssl] binary and Python's [json] module are the
      environment: they are parameters of every operation, so the
      theorems hold for every behaviour of the external tool. *)

From stdpp Require Import base gmap strings list.
From Stdlib Require Import ZArith Ascii String Numbers.DecimalString.

Set Warnings "-register-all".
(* stdpp makes [String.append] opaque to [simpl]; the proofs below compute
   with it. *)
#[local] Arguments String.append : simpl nomatch.

(* ===================================================================== *)
(** * Python string methods *)
(* ===================================================================== *)

Module PyStr.

(** [s.replace(old, new)] for a non-empty [old]: a left-to-right scan
    that replaces non-overlapping occurrences; [skip] counts the
    characters of the occurrence just replaced that are still to be
    dropped. *)
Fixpoint replace_from (old new : string) (skip : nat) (s : string) : string :=
  match s with
  | EmptyString => EmptyString
  | String c s' =>
      match skip with
      | S k => replace_from old new k s'
      | O =>
          if String.prefix old s
          then new +:+ replace_from old new (pred (String.length old)) s'
          else String c (replace_from old new O s')
      end
  end.

(** [s.replace("", new)] inserts [new] before every character and at
    the end. *)
Fixpoint interleave (new s : string) : string :=
  match s with
  | EmptyString => new
  | String c s' => new +:+ String c (interleave new s')
  end.

Definition replace (s old new : string) : string :=
  match old with
  | EmptyString => interleave new s
  | _ => replace_from old new O s
  end.

(** The characters for which [str.isspace] holds, as their UTF-8 bytes:
    \t \n \x0b \x0c \r, \x1c .. \x1f, the space, U+0085, U+00A0,
    U+1680, U+2000 .. U+200A, U+2028, U+2029, U+202F, U+205F and
    U+3000. *)
Definition space_codes : list (list nat) :=
  [[9]; [10]; [11]; [12]; [13]; [28]; [29]; [30]; [31]; [32];
   [194; 133]; [194; 160]; [225; 154; 128]]
  ++ map (fun k => [226; 128; 128 + k]) (seq 0 11)
  ++ [[226; 128; 168]; [226; 128; 169]; [226; 128; 175]; [226; 129; 159];
      [227; 128; 128]].

Definition bytes (cs : list nat) : string :=
  string_of_list_ascii (map ascii_of_nat cs).

(** [s] without one leading character among [sps], if it starts with one. *)
Fixpoint drop_space (sps : list string) (s : string) : option string :=
  match sps with
  | [] => None
  | sp :: sps' =>
      if String.prefix sp s
      then Some (substring (String.length sp) (String.length s - String.length sp) s)
      else drop_space sps' s
  end.

(** Drops leading characters among [sps]; every round drops at least
    one byte, so [String.length s] rounds suffice. *)
Fixpoint lstrip_with (sps : list string) (fuel : nat) (s : string) : string :=
  match fuel with
  | O => s
  | S n => match drop_space sps s with
           | Some s' => lstrip_with sps n s'
           | None => s
           end
  end.

(** [s.lstrip()] *)
Definition lstrip (s : string) : string :=
  lstrip_with (map bytes space_codes) (String.length s) s.

Definition rev_string (s : string) : string :=
  string_of_list_ascii (rev (list_ascii_of_string s)).

(** [s.rstrip()]: [lstrip] of the reversed bytes, with the characters'
    bytes reversed too. *)
Definition rstrip (s : string) : string :=
  rev_string (lstrip_with (map (fun cs => bytes (rev cs)) space_codes)
                          (String.length s) (rev_string s)).

(** [s.strip()] *)
Definition strip (s : string) : string := rstrip (lstrip s).

(** [s.split(sep)] for a one-character separator: never empty, and
    [''.split(sep) == ['']]. *)
Fixpoint split (sep : ascii) (s : string) : list string :=
  match s with
  | EmptyString => [EmptyString]
  | String c s' =>
      if Ascii.eqb c sep then EmptyString :: split sep s'
      else match split sep s' with
           | [] => [String c EmptyString]
           | w :: ws => String c w :: ws
           end
  end.

Definition lower_char (c : ascii) : ascii :=
  let n := nat_of_ascii c in
  if (65 <=? n) && (n <=? 90) then ascii_of_nat (n + 32) else c.

(** [s.lower()] *)
Fixpoint lower (s : string) : string :=
  match s with
  | EmptyString => EmptyString
  | String c s' => String (lower_char c) (lower s')
  end.

(** [sep.join(xs)] *)
Fixpoint join (sep : string) (xs : list string) : string :=
  match xs with
  | [] => EmptyString
  | [x] => x
  | x :: xs' => x +:+ sep +:+ join sep xs'
  end.

(** [str(n)] for a Python int. *)
Definition str_int (n : Z) : string := NilEmpty.string_of_int (Z.to_int n).

(** [needle in s] *)
Definition contains (needle s : string) : Prop :=
  exists pre post, s = pre +:+ needle +:+ post.

(** [c in s] for one character. *)
Fixpoint has_char (c : ascii) (s : string) : bool :=
  match s with
  | EmptyString => false
  | String d s' => Ascii.eqb c d || has_char c s'
  end.

End PyStr.

(* ===================================================================== *)
(** * Template rendering (CertificateManager._render_template) *)
(* ===================================================================== *)

(** [f"{{{{{key}}}}}"] is the text [{{KEY}}]. *)
Definition placeholder (key : string) : string := "{{" +:+ key +:+ "}}".

(** The loop of [_render_template]: for each item of the (insertion
    ordered) dict, replace every [{{key}}] in the current content by
    [str(value)]; the values passed by the program are all strings. *)
Definition render_content (variables : list (string * string)) (content : string)
  : string :=
  fold_left (fun content kv => PyStr.replace content (placeholder kv.1) kv.2)
    variables content.

(** The file-name sanitisation of [create_csr]:
    [common_name.replace("*", "wildcard").replace("/", "_")]. *)
Definition safe_name (common_name : string) : string :=
  PyStr.replace (PyStr.replace common_name "*" "wildcard") "/" "_".

(* ===================================================================== *)
(** * Values, exceptions and the world *)
(* ===================================================================== *)

(** An absolute path as the list of its components: [Path] objects of
    the program ([BASE_DIR / "conf"] is [BASE_DIR ++ ["conf"]]). *)
Abbreviation path := (list string) (only parsing).

(** [str(p)] of an absolute path. *)
Definition path_str (p : path) : string :=
  "/" +:+ PyStr.join "/" p.

(** [p / name] *)
Definition join_path (p : path) (name : string) : path := p ++ [name].
Infix "//" := join_path (at level 40, left associativity).

(** JSON values as [json.load] returns them (numbers are integers in this
    development); a Python dict is an association list in insertion
    order. *)
Inductive json :=
| JNull
| JBool (b : bool)
| JInt (n : Z)
| JStr (s : string)
| JList (xs : list json)
| JObj (kvs : list (string * json)).

(** The exceptions the two programs can raise.  [SystemExit] derives from
    [BaseException]; all the others from [Exception].  [UnicodeDecodeError]
    (a [ValueError]) is raised by text-mode reads of bytes that are not
    UTF-8; the offending byte and its position, which its message names,
    are left out. *)
Inductive exn :=
| SystemExit (code : Z)
| HTTPException (status_code : Z) (detail : string)
| AttributeError (obj attr : string)
| FileNotFoundError (p : path)
| FileExistsError (p : path)
| IsADirectoryError (p : path)
| KeyError (key : string)
| TypeError (msg : string)
| ValueError (msg : string)
| UnicodeDecodeError
| EOFError.

(** [except Exception] catches every exception but [SystemExit]. *)
Definition is_Exception (e : exn) : bool :=
  match e with SystemExit _ => false | _ => true end.

(** [str(e)] *)
Definition str_exn (e : exn) : string :=
  match e with
  | SystemExit c => PyStr.str_int c
  | HTTPException c d => PyStr.str_int c +:+ ": " +:+ d
  | AttributeError o a => "'" +:+ o +:+ "' object has no attribute '" +:+ a +:+ "'"
  | FileNotFoundError p => "[Errno 2] No such file or directory: '" +:+ path_str p +:+ "'"
  | FileExistsError p => "[Errno 17] File exists: '" +:+ path_str p +:+ "'"
  | IsADirectoryError p => "[Errno 21] Is a directory: '" +:+ path_str p +:+ "'"
  | KeyError k => "'" +:+ k +:+ "'"
  | TypeError m => m
  | ValueError m => m
  | UnicodeDecodeError => "'utf-8' codec can't decode bytes"
  | EOFError => "EOF when reading a line"
  end.

(** What [subprocess.run(..., capture_output=True, text=True)] returns. *)
Record proc_result := mkProc {
  returncode : Z;
  proc_stdout : string;
  proc_stderr : string
}.

(** The state the two programs act on. *)
Record world := mkWorld {
  files : gmap (list string) string;   (** regular files and their text *)
  dirs : gset (list string);           (** directories *)
  modes : gmap (list string) Z;        (** permission bits set by chmod *)
  stdin : list string;                 (** lines still to be read by input() *)
  stdout : list string;                (** lines printed to sys.stdout *)
  stderr : list string;                (** lines printed to sys.stderr *)
  calls : list (list string);          (** argv of every run of the tool *)
  config : json;                       (** [self.config] of the manager *)
  cwd : list string;                   (** the working directory *)
  clock : string;                      (** [datetime.now().strftime("%Y%m%d_%H%M%S")] *)
  fqdn : string                        (** [socket.getfqdn()] *)
}.

Definition set_files (w : world) (f : gmap (list string) string) : world :=
  mkWorld f w.(dirs) w.(modes) w.(stdin) w.(stdout) w.(stderr) w.(calls)
    w.(config) w.(cwd) w.(clock) w.(fqdn).
Definition set_dirs (w : world) (d : gset (list string)) : world :=
  mkWorld w.(files) d w.(modes) w.(stdin) w.(stdout) w.(stderr) w.(calls)
    w.(config) w.(cwd) w.(clock) w.(fqdn).
Definition set_modes (w : world) (m : gmap (list string) Z) : world :=
  mkWorld w.(files) w.(dirs) m w.(stdin) w.(stdout) w.(stderr) w.(calls)
    w.(config) w.(cwd) w.(clock) w.(fqdn).
Definition set_stdin (w : world) (i : list string) : world :=
  mkWorld w.(files) w.(dirs) w.(modes) i w.(stdout) w.(stderr) w.(calls)
    w.(config) w.(cwd) w.(clock) w.(fqdn).
Definition set_stdout (w : world) (o : list string) : world :=
  mkWorld w.(files) w.(dirs) w.(modes) w.(stdin) o w.(stderr) w.(calls)
    w.(config) w.(cwd) w.(clock) w.(fqdn).
Definition set_stderr (w : world) (e : list string) : world :=
  mkWorld w.(files) w.(dirs) w.(modes) w.(stdin) w.(stdout) e w.(calls)
    w.(config) w.(cwd) w.(clock) w.(fqdn).
Definition set_calls (w : world) (c : list (list string)) : world :=
  mkWorld w.(files) w.(dirs) w.(modes) w.(stdin) w.(stdout) w.(stderr) c
    w.(config) w.(cwd) w.(clock) w.(fqdn).
Definition set_config (w : world) (c : json) : world :=
  mkWorld w.(files) w.(dirs) w.(modes) w.(stdin) w.(stdout) w.(stderr) w.(calls)
    c w.(cwd) w.(clock) w.(fqdn).

(* ===================================================================== *)
(** * The state-and-exception monad *)
(* ===================================================================== *)

Inductive result (A : Type) :=
| Ok (a : A)
| Exc (e : exn).
Arguments Ok {A} a.
Arguments Exc {A} e.

Definition M (A : Type) : Type := world -> result A * world.

Global Instance M_ret : MRet M := fun A a w => (Ok a, w).
Global Instance M_bind : MBind M := fun A B k m w =>
  match m w with
  | (Ok a, w') => k a w'
  | (Exc e, w') => (Exc e, w')
  end.

Definition bindM {A B} (m : M A) (k : A -> M B) : M B := mbind k m.
Notation "x <- m ;; k" := (bindM m (fun x => k))
  (at level 100, m at next level, right associativity).

(** [raise e] *)
Definition raise {A} (e : exn) : M A := fun w => (Exc e, w).

(** [try: m except: h]; the handler sees every exception and re-raises
    the ones its [except] clauses do not name. *)
Definition try_except {A} (m : M A) (h : exn -> M A) : M A := fun w =>
  match m w with
  | (Ok a, w') => (Ok a, w')
  | (Exc e, w') => h e w'
  end.

(** [except HTTPException: raise] followed by
    [except Exception as e: raise HTTPException(status_code=500, detail=str(e))]. *)
Definition reraise_as_500 {A} (e : exn) : M A :=
  match e with
  | HTTPException _ _ => raise e
  | _ => if is_Exception e then raise (HTTPException 500 (str_exn e)) else raise e
  end.

Definition gets {A} (f : world -> A) : M A := fun w => (Ok (f w), w).
Definition modify (f : world -> world) : M unit := fun w => (Ok tt, f w).

(** [print(s)] and [print(s, file=sys.stderr)] *)
Definition print (s : string) : M unit := modify (fun w => set_stdout w (w.(stdout) ++ [s])).
Definition eprint (s : string) : M unit := modify (fun w => set_stderr w (w.(stderr) ++ [s])).

(** [input(prompt)]: the prompt goes to stdout, a line is taken from
    stdin, [EOFError] at end of input. *)
Definition read_line : M string := fun w =>
  match w.(stdin) with
  | [] => (Exc EOFError, w)
  | l :: rest => (Ok l, set_stdin w rest)
  end.

Definition input (prompt : string) : M string := print prompt ;; read_line.

(** [sys.exit(code)] *)
Definition sys_exit {A} (code : Z) : M A := raise (SystemExit code).

(* ===================================================================== *)
(** * pathlib and file I/O *)
(* ===================================================================== *)

(** A newline and a tab character. *)
Definition nl : string := String (ascii_of_nat 10) EmptyString.
Definition tab : ascii := ascii_of_nat 9.

(** [Path.parent] *)
Definition parent (p : path) : path := removelast p.

Definition is_dir (w : world) (p : path) : bool :=
  bool_decide (p = []) || bool_decide (p ∈ w.(dirs)).
Definition is_file (w : world) (p : path) : bool :=
  bool_decide (is_Some (w.(files) !! p)).

(** [p.exists()] *)
Definition path_exists (p : path) : M bool :=
  gets (fun w => is_dir w p || is_file w p).

(** Lexical normalisation of the components of a path: [""] and ["."]
    vanish, [".."] drops the previous component (the OS does this when it
    resolves the path). *)
Definition norm (p : path) : path :=
  rev (fold_left (fun acc c =>
         if String.eqb c "" || String.eqb c "." then acc
         else if String.eqb c ".." then tail acc else c :: acc) p []).

(** [base / s] for a string [s], and [Path(s)] ([base] being the
    working directory): an absolute [s] replaces [base]. *)
Definition div_str (base : path) (s : string) : path :=
  match s with
  | String c _ => if Ascii.eqb c "/"%char then norm (PyStr.split "/"%char s)
                  else norm (base ++ PyStr.split "/"%char s)
  | EmptyString => norm base
  end.

(** [Path(s)]: paths are kept resolved against the working directory;
    [str(p)] of a relative path and [path_str] of its resolved form name
    the same file for the tool.  [..] is removed lexically, by [norm]:
    the OS resolves it against the directories on disk, so where a
    component before a [..] is missing or is not a directory, the OS
    finds no file where this model finds one (there are no symbolic
    links in the model; on every other path the two agree). *)
Definition make_path (s : string) : M path := gets (fun w => div_str w.(cwd) s).

(** [Path.name] and [Path.stem]: the stem drops the last suffix when the
    last dot is neither the first nor the last character of the name. *)
Definition path_name (p : path) : string := default EmptyString (last p).

Fixpoint rfind_dot (s : string) (i : nat) (found : option nat) : option nat :=
  match s with
  | EmptyString => found
  | String c s' => rfind_dot s' (S i) (if Ascii.eqb c "."%char then Some i else found)
  end.

Definition stem (p : path) : string :=
  let name := path_name p in
  match rfind_dot name 0 None with
  | Some i => if (0 <? i) && (i <? String.length name - 1)
              then String.substring 0 i name else name
  | None => name
  end.

(** [p.mkdir(exist_ok=True)] *)
Definition mkdir (p : path) : M unit := fun w =>
  if is_dir w p then (Ok tt, w)
  else if is_file w p then (Exc (FileExistsError p), w)
  else if is_dir w (parent p) then (Ok tt, set_dirs w ({[p]} ∪ w.(dirs)))
  else (Exc (FileNotFoundError p), w).

(** [p.mkdir(parents=True, exist_ok=True)]: missing ancestors are created
    first, from the root down. *)
Fixpoint mkdir_parents_n (n : nat) (p : path) : M unit :=
  match n with
  | O => mkdir p
  | S n' => fun w =>
      if is_dir w p || is_file w p || is_dir w (parent p) then mkdir p w
      else (mkdir_parents_n n' (parent p) ;; mkdir p) w
  end.

Definition mkdir_parents (p : path) : M unit := mkdir_parents_n (List.length p) p.

(** [p.chmod(mode)] *)
Definition chmod (p : path) (mode : Z) : M unit := fun w =>
  if is_dir w p || is_file w p then (Ok tt, set_modes w (<[p:=mode]> w.(modes)))
  else (Exc (FileNotFoundError p), w).

(** [p.touch()]: an existing path is left as it is. *)
Definition touch (p : path) : M unit := fun w =>
  if is_file w p || is_dir w p then (Ok tt, w)
  else if is_dir w (parent p) then (Ok tt, set_files w (<[p:=EmptyString]> w.(files)))
  else (Exc (FileNotFoundError p), w).

(** [p.write_text(s)], and [open(p, 'w')] followed by [f.write(s)]. *)
Definition write_text (p : path) (s : string) : M unit := fun w =>
  if is_dir w p then (Exc (IsADirectoryError p), w)
  else if is_dir w (parent p) then (Ok tt, set_files w (<[p:=s]> w.(files)))
  else (Exc (FileNotFoundError p), w).

(** Universal newlines of text mode: ["\r\n"] and ["\r"] read as ["\n"]. *)
Fixpoint translate_newlines (s : string) : string :=
  match s with
  | EmptyString => EmptyString
  | String c s' =>
      if Nat.eqb (nat_of_ascii c) 13 then
        match s' with
        | String d s'' => if Nat.eqb (nat_of_ascii d) 10
                          then String "010"%char (translate_newlines s'')
                          else String "010"%char (translate_newlines s')
        | EmptyString => nl
        end
      else String c (translate_newlines s')
  end.

(** [lo <= b <= hi] for the byte [b]. *)
Definition byte_in (lo hi : nat) (b : ascii) : bool :=
  (lo <=? nat_of_ascii b) && (nat_of_ascii b <=? hi).

(** The bytes are well-formed UTF-8, which the strict [utf-8] decoder
    accepts: no stray continuation byte, no overlong form, no surrogate,
    nothing above U+10FFFF and no truncated sequence. *)
Fixpoint utf8_decodes (s : string) : bool :=
  match s with
  | EmptyString => true
  | String a s1 =>
      let n := nat_of_ascii a in
      if n <? 128 then utf8_decodes s1
      else if (194 <=? n) && (n <=? 223) then
        match s1 with
        | String b s2 => byte_in 128 191 b && utf8_decodes s2
        | EmptyString => false
        end
      else if (224 <=? n) && (n <=? 239) then
        match s1 with
        | String b (String c s3) =>
            byte_in (if n =? 224 then 160 else 128) (if n =? 237 then 159 else 191) b
            && byte_in 128 191 c && utf8_decodes s3
        | _ => false
        end
      else if (240 <=? n) && (n <=? 244) then
        match s1 with
        | String b (String c (String d s4)) =>
            byte_in (if n =? 240 then 144 else 128) (if n =? 244 then 143 else 191) b
            && byte_in 128 191 c && byte_in 128 191 d && utf8_decodes s4
        | _ => false
        end
      else false
  end.

(** [open(p, 'r').read()] and [p.read_text()], in text mode with the
    UTF-8 locale encoding: the bytes are decoded, then newlines
    translated.  [for line in f] decodes the file in chunks; a file that
    does not decode raises here before its first line, where Python may
    first hand out the lines of the chunks before the bad bytes. *)
Definition read_text (p : path) : M string := fun w =>
  match w.(files) !! p with
  | Some s => if utf8_decodes s then (Ok (translate_newlines s), w)
              else (Exc UnicodeDecodeError, w)
  | None => if is_dir w p then (Exc (IsADirectoryError p), w)
            else (Exc (FileNotFoundError p), w)
  end.

(** The pieces of a text between newlines, without the final empty piece
    of a text that ends in a newline. *)
Definition split_lines (s : string) : list string :=
  let ps := PyStr.split "010"%char s in
  match last ps with
  | Some EmptyString => removelast ps
  | _ => ps
  end.

(** [for line in f] over the text read: each line keeps its newline,
    except an unterminated last line. *)
Definition file_lines (t : string) : list string :=
  let ps := PyStr.split "010"%char t in
  match last ps with
  | Some EmptyString => map (fun l => l +:+ nl) (removelast ps)
  | _ => map (fun l => l +:+ nl) (removelast ps) ++ [default EmptyString (last ps)]
  end.

(** [for x in xs: body(x)] *)
Fixpoint for_each {A} (xs : list A) (body : A -> M unit) : M unit :=
  match xs with
  | [] => mret tt
  | x :: xs' => body x ;; for_each xs' body
  end.

(* ===================================================================== *)
(** * Dict access *)
(* ===================================================================== *)

Fixpoint assoc (k : string) (kvs : list (string * json)) : option json :=
  match kvs with
  | [] => None
  | (k', v) :: rest => if String.eqb k k' then Some v else assoc k rest
  end.

(** [d[k] = v]: an existing key keeps its place, a new one goes last. *)
Fixpoint assoc_set (k : string) (v : json) (kvs : list (string * json))
  : list (string * json) :=
  match kvs with
  | [] => [(k, v)]
  | (k', v') :: rest =>
      if String.eqb k k' then (k, v) :: rest else (k', v') :: assoc_set k v rest
  end.

(** [str(v)] of a JSON value: strings are themselves, [repr] inside
    containers (quotes in strings are not escaped here). *)
Fixpoint py_repr (v : json) : string :=
  match v with
  | JNull => "None"
  | JBool true => "True"
  | JBool false => "False"
  | JInt n => PyStr.str_int n
  | JStr s => "'" +:+ s +:+ "'"
  | JList xs => "[" +:+ PyStr.join ", " (map py_repr xs) +:+ "]"
  | JObj kvs =>
      "{" +:+ PyStr.join ", " (map (fun kv => "'" +:+ kv.1 +:+ "': " +:+ py_repr kv.2) kvs)
      +:+ "}"
  end.

Definition py_str (v : json) : string :=
  match v with JStr s => s | _ => py_repr v end.

(** Python truthiness of a string: [s or d] is [d] when [s] is empty. *)
Definition or_else (s : string) (d : json) : json :=
  match s with EmptyString => d | _ => JStr s end.

(** [self.config[k]] *)
Definition cfg_get (k : string) : M json := fun w =>
  match w.(config) with
  | JObj kvs =>
      match assoc k kvs with
      | Some v => (Ok v, w)
      | None => (Exc (KeyError k), w)
      end
  | _ => (Exc (TypeError "list indices must be integers or slices, not str"), w)
  end.

(** [self.config[k] = v] *)
Definition cfg_set (k : string) (v : json) : M unit := fun w =>
  match w.(config) with
  | JObj kvs => (Ok tt, set_config w (JObj (assoc_set k v kvs)))
  | _ => (Exc (TypeError "list indices must be integers or slices, not str"), w)
  end.

(* ===================================================================== *)
(** * certmgr.py *)
(* ===================================================================== *)

(** [BASE_DIR = Path(__file__).resolve().parent.parent]: the [src/]
    directory of the checkout (placed at /certmgr/src). *)
Definition BASE_DIR : path := ["certmgr"; "src"].
Definition CONF_DIR : path := BASE_DIR // "conf".
Definition CA_DIR : path := BASE_DIR // "ca".
Definition CSR_DIR : path := BASE_DIR // "csr".
Definition PRIVATE_DIR : path := BASE_DIR // "private_keys".
Definition ISSUED_DIR : path := BASE_DIR // "issued_certificates".
Definition CRL_DIR : path := BASE_DIR // "crl".

(** [f"{p}"] for a path, and a separator line of [n] characters. *)
Definition rule (n : nat) : string := String.concat "" (repeat "=" n).

Section CertificateManager.

(** The [openssl] binary, in the runs where [subprocess.run] gets a
    result: given its argv and the files, it answers with its exit code,
    its output and error output as text (already decoded) and the files
    as it leaves them.  The runs in which [subprocess.run] raises (no
    [openssl] on the PATH, output that is not UTF-8) are not modelled. *)
Variable openssl : list string -> gmap (list string) string ->
                   proc_result * gmap (list string) string.
(** [json.dump(config, f, indent=2)] and [json.load(f)] ([None]: the
    text is not JSON, [json.JSONDecodeError]). *)
Variable json_dumps : json -> string.
Variable json_loads : string -> option json.

(** [subprocess.run(cmd, capture_output=True, text=True, env=...)], for
    a binary that starts: text mode reads the captured output with
    universal newlines. *)
Definition subprocess_run (cmd : list string) : M proc_result := fun w =>
  let '(r, fs') := openssl cmd w.(files) in
  (Ok (mkProc r.(returncode) (translate_newlines r.(proc_stdout))
              (translate_newlines r.(proc_stderr))),
   set_calls (set_files w fs') (w.(calls) ++ [cmd])).

Definition _get_default_config : M json :=
  fqdn <- gets fqdn ;;
  mret (JObj [("country", JStr "US"); ("state", JStr "California");
              ("locality", JStr "San Francisco");
              ("organization", JStr "Local Development CA");
              ("root_ca_cn", JStr ("Root CA " +:+ fqdn));
              ("inter_ca_cn", JStr ("Intermediate CA " +:+ fqdn));
              ("root_ca_days", JInt 3650); ("inter_ca_days", JInt 1825);
              ("cert_days", JInt 365); ("fqdn", JStr fqdn)]).

Definition _load_config : M json :=
  let config_file := CONF_DIR // "certmgr_config.json" in
  e <- path_exists config_file ;;
  if e then
    (text <- read_text config_file ;;
     match json_loads text with
     | Some j => mret j
     | None => raise (ValueError "Expecting value")
     end)
  else _get_default_config.

Definition _save_config : M unit :=
  c <- gets config ;;
  write_text (CONF_DIR // "certmgr_config.json") (json_dumps c).

Definition _render_template (template_file output_file : path)
    (variables : list (string * json)) : M unit :=
  content <- read_text template_file ;;
  let content := render_content (map (fun kv => (kv.1, py_str kv.2)) variables) content in
  write_text output_file content ;;
  print ("✓ Generated: " +:+ path_str output_file).

Definition _run_openssl (args : list string) : M proc_result :=
  let cmd := "openssl" :: args in
  print ("→ Running: " +:+ PyStr.join " " cmd) ;;
  result <- subprocess_run cmd ;;
  if negb (Z.eqb result.(returncode) 0) then
    (eprint ("✗ Error: " +:+ result.(proc_stderr)) ;;
     sys_exit 1)
  else mret result.

(** One prompt of the interactive configuration:
    [self.config[k] = input(f"{label} [{self.config[k]}]: ") or self.config[k]]. *)
Definition ask (k label : string) : M unit :=
  cur <- cfg_get k ;;
  answer <- input (label +:+ " [" +:+ py_str cur +:+ "]: ") ;;
  cur' <- cfg_get k ;;
  cfg_set k (or_else answer cur').

(** The body of the loop [for ca_type, ca_dir in ...] of [init]. *)
Definition init_ca_dir (ca_dir : path) : M unit :=
  mkdir (ca_dir // "certs") ;;
  mkdir (ca_dir // "crl") ;;
  mkdir (ca_dir // "newcerts") ;;
  mkdir (ca_dir // "private") ;;
  chmod (ca_dir // "private") 448 ;;
  let index_file := ca_dir // "index.txt" in
  e <- path_exists index_file ;;
  (if e then mret tt else touch index_file) ;;
  let serial_file := ca_dir // "serial" in
  e <- path_exists serial_file ;;
  (if e then mret tt else write_text serial_file ("1000" +:+ nl)) ;;
  let crlnumber_file := ca_dir // "crlnumber" in
  e <- path_exists crlnumber_file ;;
  (if e then mret tt else write_text crlnumber_file ("1000" +:+ nl)).

Definition init (interactive : bool) : M unit :=
  print "🔧 Initializing Certificate Management System" ;;
  for_each [CONF_DIR; CA_DIR; CSR_DIR; PRIVATE_DIR; ISSUED_DIR; CRL_DIR] mkdir_parents ;;
  mkdir (CA_DIR // "root") ;;
  mkdir (CA_DIR // "intermediate") ;;
  chmod PRIVATE_DIR 448 ;;
  (if interactive then
     print (nl +:+ "📝 Configuration (press Enter for defaults)") ;;
     ask "country" "Country" ;;
     ask "state" "State" ;;
     ask "locality" "Locality" ;;
     ask "organization" "Organization" ;;
     ask "root_ca_cn" "Root CA CN" ;;
     ask "inter_ca_cn" "Intermediate CA CN"
   else mret tt) ;;
  _save_config ;;
  let root_ca_dir := CA_DIR // "root" in
  let inter_ca_dir := CA_DIR // "intermediate" in
  root_cn <- cfg_get "root_ca_cn" ;;
  country <- cfg_get "country" ;;
  state <- cfg_get "state" ;;
  org <- cfg_get "organization" ;;
  let root_vars := [("ROOT_CA_DIR", JStr (path_str root_ca_dir));
                    ("ROOT_CA_CN", root_cn); ("COUNTRY", country);
                    ("STATE", state); ("ORG", org)] in
  inter_cn <- cfg_get "inter_ca_cn" ;;
  country <- cfg_get "country" ;;
  state <- cfg_get "state" ;;
  org <- cfg_get "organization" ;;
  let inter_vars := [("INTER_CA_DIR", JStr (path_str inter_ca_dir));
                     ("INTER_CA_CN", inter_cn); ("COUNTRY", country);
                     ("STATE", state); ("ORG", org)] in
  _render_template (CONF_DIR // "rootca.cnf.template") (CONF_DIR // "rootca.cnf") root_vars ;;
  _render_template (CONF_DIR // "intermediate.cnf.template")
    (CONF_DIR // "intermediate.cnf") inter_vars ;;
  for_each [root_ca_dir; inter_ca_dir] init_ca_dir ;;
  print (nl +:+ "✓ Initialization complete") ;;
  print ("  Configuration: " +:+ path_str (CONF_DIR // "certmgr_config.json")).

Definition _display_cert_info (cert_file : path) : M unit :=
  result <- _run_openssl ["x509"; "-in"; path_str cert_file; "-noout"; "-text";
                          "-certopt"; "no_pubkey,no_sigdump"] ;;
  print (nl +:+ rule 60) ;;
  print result.(proc_stdout) ;;
  print (rule 60 +:+ nl).

(** The overwrite guard of the two CA-creation methods: [true] when the
    method goes on, [false] when it returns. *)
Definition confirm_overwrite (what : string) (cert_file : path) : M bool :=
  e <- path_exists cert_file ;;
  if e then
    (print ("⚠ " +:+ what +:+ " already exists: " +:+ path_str cert_file) ;;
     response <- input "Overwrite? (yes/no): " ;;
     mret (String.eqb (PyStr.lower response) "yes"))
  else mret true.

Definition create_root_ca : M unit :=
  print "🔐 Creating Root CA" ;;
  let root_ca_dir := CA_DIR // "root" in
  let key_file := root_ca_dir // "private" // "ca.key.pem" in
  let cert_file := root_ca_dir // "certs" // "ca.cert.pem" in
  go <- confirm_overwrite "Root CA" cert_file ;;
  if negb go then mret tt else
  _run_openssl ["genrsa"; "-aes256"; "-out"; path_str key_file; "4096"] ;;
  chmod key_file 256 ;;
  days <- cfg_get "root_ca_days" ;;
  _run_openssl ["req"; "-config"; path_str (CONF_DIR // "rootca.cnf");
                "-key"; path_str key_file; "-new"; "-x509";
                "-days"; py_str days; "-sha256"; "-extensions"; "v3_ca";
                "-out"; path_str cert_file] ;;
  chmod cert_file 292 ;;
  print ("✓ Root CA created: " +:+ path_str cert_file) ;;
  _display_cert_info cert_file.

Definition create_intermediate_ca : M unit :=
  print "🔐 Creating Intermediate CA" ;;
  let root_ca_dir := CA_DIR // "root" in
  let inter_ca_dir := CA_DIR // "intermediate" in
  let key_file := inter_ca_dir // "private" // "intermediate.key.pem" in
  let csr_file := inter_ca_dir // "csr" // "intermediate.csr.pem" in
  let cert_file := inter_ca_dir // "certs" // "intermediate.cert.pem" in
  let chain_file := inter_ca_dir // "certs" // "ca-chain.cert.pem" in
  go <- confirm_overwrite "Intermediate CA" cert_file ;;
  if negb go then mret tt else
  _run_openssl ["genrsa"; "-aes256"; "-out"; path_str key_file; "4096"] ;;
  chmod key_file 256 ;;
  mkdir (inter_ca_dir // "csr") ;;
  _run_openssl ["req"; "-config"; path_str (CONF_DIR // "intermediate.cnf");
                "-new"; "-sha256"; "-key"; path_str key_file;
                "-out"; path_str csr_file] ;;
  days <- cfg_get "inter_ca_days" ;;
  _run_openssl ["ca"; "-config"; path_str (CONF_DIR // "rootca.cnf");
                "-extensions"; "v3_intermediate_ca"; "-days"; py_str days;
                "-notext"; "-md"; "sha256"; "-in"; path_str csr_file;
                "-out"; path_str cert_file; "-batch"] ;;
  chmod cert_file 292 ;;
  (* with open(chain_file, 'w') as chain: ... *)
  write_text chain_file EmptyString ;;
  inter <- read_text cert_file ;;
  write_text chain_file inter ;;
  root <- read_text (root_ca_dir // "certs" // "ca.cert.pem") ;;
  write_text chain_file (inter +:+ root) ;;
  print ("✓ Intermediate CA created: " +:+ path_str cert_file) ;;
  print ("✓ Certificate chain: " +:+ path_str chain_file) ;;
  _display_cert_info cert_file.

Definition create_csr (common_name cert_type : string) : M (string * string) :=
  print ("📝 Creating CSR for: " +:+ common_name) ;;
  let safe := safe_name common_name in
  timestamp <- gets clock ;;
  let key_file := PRIVATE_DIR // (safe +:+ "_" +:+ timestamp +:+ ".key.pem") in
  let csr_file := CSR_DIR // (safe +:+ "_" +:+ timestamp +:+ ".csr.pem") in
  let config_file := CONF_DIR // ("csr_" +:+ safe +:+ "_" +:+ timestamp +:+ ".cnf") in
  san_dns <- input ("DNS SAN [" +:+ common_name +:+ "]: ") ;;
  san_ip <- input "IP SAN [127.0.0.1]: " ;;
  country <- cfg_get "country" ;;
  state <- cfg_get "state" ;;
  org <- cfg_get "organization" ;;
  let csr_vars := [("CERT_CN", JStr common_name); ("COUNTRY", country);
                   ("STATE", state); ("ORG", org);
                   ("SAN_DNS", or_else san_dns (JStr common_name));
                   ("SAN_IP", or_else san_ip (JStr "127.0.0.1"))] in
  _render_template (CONF_DIR // "csr.cnf.template") config_file csr_vars ;;
  _run_openssl ["genrsa"; "-out"; path_str key_file; "2048"] ;;
  chmod key_file 256 ;;
  _run_openssl ["req"; "-config"; path_str config_file; "-key"; path_str key_file;
                "-new"; "-sha256"; "-out"; path_str csr_file] ;;
  print ("✓ CSR created: " +:+ path_str csr_file) ;;
  print ("✓ Private key: " +:+ path_str key_file) ;;
  mret (path_str csr_file, path_str key_file).

Definition sign_certificate (csr_file cert_type : string) : M string :=
  print ("✍ Signing certificate: " +:+ csr_file) ;;
  csr_path <- make_path csr_file ;;
  e <- path_exists csr_path ;;
  if negb e then (eprint ("✗ CSR not found: " +:+ csr_file) ;; sys_exit 1) else
  let cert_name := PyStr.replace (stem csr_path) ".csr" "" in
  let cert_file := ISSUED_DIR // (cert_name +:+ ".cert.pem") in
  let extension := if String.eqb cert_type "server" then "server_cert" else "usr_cert" in
  days <- cfg_get "cert_days" ;;
  _run_openssl ["ca"; "-config"; path_str (CONF_DIR // "intermediate.cnf");
                "-extensions"; extension; "-days"; py_str days;
                "-notext"; "-md"; "sha256"; "-in"; path_str csr_path;
                "-out"; path_str cert_file; "-batch"] ;;
  chmod cert_file 292 ;;
  print ("✓ Certificate issued: " +:+ path_str cert_file) ;;
  _display_cert_info cert_file ;;
  mret (path_str cert_file).

(** The argv of the CRL generation step of [update_crl]. *)
Definition gencrl_cmd : list string :=
  ["openssl"; "ca"; "-config"; path_str (CONF_DIR // "intermediate.cnf");
   "-gencrl"; "-out"; path_str (CRL_DIR // "intermediate.crl.pem")].

Definition update_crl : M unit :=
  print "📋 Updating CRL" ;;
  let inter_ca_dir := CA_DIR // "intermediate" in
  let crl_file := CRL_DIR // "intermediate.crl.pem" in
  _run_openssl ["ca"; "-config"; path_str (CONF_DIR // "intermediate.cnf");
                "-gencrl"; "-out"; path_str crl_file] ;;
  print ("✓ CRL updated: " +:+ path_str crl_file) ;;
  result <- _run_openssl ["crl"; "-in"; path_str crl_file; "-noout"; "-text"] ;;
  print result.(proc_stdout).

Definition revoke_certificate (cert_file : string) : M unit :=
  print ("🚫 Revoking certificate: " +:+ cert_file) ;;
  cert_path <- make_path cert_file ;;
  e <- path_exists cert_path ;;
  if negb e then (eprint ("✗ Certificate not found: " +:+ cert_file) ;; sys_exit 1) else
  _run_openssl ["ca"; "-config"; path_str (CONF_DIR // "intermediate.cnf");
                "-revoke"; path_str cert_path] ;;
  print ("✓ Certificate revoked: " +:+ cert_file) ;;
  update_crl.

(** A line of the CA index file, unpacked. *)
Record index_row := mkRow {
  row_status : string;
  row_exp_date : string;
  row_rev_date : string;
  row_serial : string;
  row_subject : string
}.

(** [parts = line.strip().split('\t')] *)
Definition index_fields (line : string) : list string :=
  PyStr.split tab (PyStr.strip line).

(** [status, exp_date, rev_date, serial, _, subject = parts] *)
Definition unpack6 (parts : list string) : M index_row :=
  match parts with
  | [status; exp_date; rev_date; serial; _; subject] =>
      mret (mkRow status exp_date rev_date serial subject)
  | _ =>
      if 6 <? List.length parts
      then raise (ValueError "too many values to unpack (expected 6)")
      else raise (ValueError ("not enough values to unpack (expected 6, got "
                              +:+ PyStr.str_int (Z.of_nat (List.length parts)) +:+ ")"))
  end.

(** The line printed by [list_certificates] for a row. *)
Definition row_line (r : index_row) : string :=
  (if String.eqb r.(row_status) "V" then "✓" else "✗") +:+ " " +:+ r.(row_serial)
  +:+ ": " +:+ r.(row_subject) +:+ " (expires: " +:+ r.(row_exp_date) +:+ ")".

(** The body of [for line in f] in [list_certificates]. *)
Definition list_line (line : string) : M unit :=
  let parts := index_fields line in
  if 6 <=? List.length parts then
    (row <- unpack6 parts ;;
     print (row_line row))
  else mret tt.

Definition INDEX_FILE : path := CA_DIR // "intermediate" // "index.txt".

Definition list_certificates : M unit :=
  print "📜 Issued Certificates" ;;
  let inter_ca_dir := CA_DIR // "intermediate" in
  let index_file := inter_ca_dir // "index.txt" in
  e <- path_exists index_file ;;
  if negb e then print "No certificates issued yet" else
  content <- read_text index_file ;;
  for_each (file_lines content) list_line.

(** The subcommands after [parser.parse_args()] (argparse has checked
    the arguments and the [--type] choices). *)
Inductive command :=
| Init
| CreateRootCA
| CreateInterCA
| CreateCertReq (common_name cert_type : string)
| SignCert (csr_file cert_type : string)
| RevokeCert (cert_file : string)
| UpdateCRL
| ListCerts.

Definition main (args_command : option command) : M unit :=
  match args_command with
  | None =>
      print ("usage: certmgr.py [-h] {init,createRootCA,createInterCA,createCertReq,"
             +:+ "signCert,revokeCert,updateCRL,listCerts} ...") ;;
      sys_exit 1
  | Some c =>
      (* mgr = CertificateManager() *)
      cfg <- _load_config ;;
      modify (fun w => set_config w cfg) ;;
      match c with
      | Init => init true
      | CreateRootCA => create_root_ca
      | CreateInterCA => create_intermediate_ca
      | CreateCertReq cn ty => create_csr cn ty ;; mret tt
      | SignCert f ty => sign_certificate f ty ;; mret tt
      | RevokeCert f => revoke_certificate f
      | UpdateCRL => update_crl
      | ListCerts => list_certificates
      end
  end.

End CertificateManager.

(* ===================================================================== *)
(** * api_server.py *)
(* ===================================================================== *)

(** What an endpoint function returns: a [StatusResponse], a plain dict
    serialised as JSON, or a [FileResponse]. *)
Inductive response :=
| StatusResponse (success : bool) (message : string) (data : option json)
| JsonBody (body : json)
| FileResponse (p : path) (filename media_type : string).

(** The HTTP status the client gets: 200 for a returned response, the
    code of an [HTTPException], and 500 for any other exception: for an
    [Exception] from Starlette's error middleware, for a [BaseException]
    such as [SystemExit] from uvicorn, which catches it around the
    application and answers 500 before the response has started. *)
Definition http_status (r : result response) : option Z :=
  match r with
  | Ok _ => Some 200%Z
  | Exc (HTTPException c _) => Some c
  | Exc _ => Some 500%Z
  end.


(** Request bodies, after pydantic validation and defaults. *)
Record InitRequest := mkInitRequest {
  req_country : option string;
  req_state : option string;
  req_locality : option string;
  req_organization : option string;
  req_root_ca_cn : option string;
  req_inter_ca_cn : option string
}.


Record CSRRequest := mkCSRRequest {
  req_common_name : string;
  req_cert_type : string;
  req_san_dns : option string;
  req_san_ip : option string
}.

Record SignRequest := mkSignRequest {
  req_csr_filename : string;
  req_sign_cert_type : string
}.

Record RevokeRequest := mkRevokeRequest {
  req_cert_filename : string
}.

(** [except Exception as e: raise HTTPException(status_code=500, detail=str(e))] *)
Definition except_Exception_500 {A} (e : exn) : M A :=
  if is_Exception e then raise (HTTPException 500 (str_exn e)) else raise e.

(** The text of the [AttributeError] for attribute [a] of the manager. *)
Definition no_attr (a : string) : string := str_exn (AttributeError "CertificateManager" a).

(** [cert_mgr.CA_DIR], [cert_mgr.CSR_DIR], [cert_mgr.ISSUED_DIR] and
    [cert_mgr.CRL_DIR].  The class [CertificateManager] (certmgr.py,
    lines 27-433) defines none of these names: they are globals of the
    module [certmgr], and [__init__] sets only [self.config].  Looking one
    of them up on the instance raises [AttributeError]. *)
Definition cert_mgr_path_attr (attr : string) : M path :=
  raise (AttributeError "CertificateManager" attr).

(** [if request.x: cert_mgr.config[k] = request.x] *)
Definition set_if_given (k : string) (o : option string) : M unit :=
  match o with
  | Some (String _ _ as s) => cfg_set k (JStr s)
  | _ => mret tt
  end.

(** The JSON entry of an index row in [list_certificates]. *)
Definition row_json (r : index_row) : json :=
  JObj [("status", JStr (if String.eqb r.(row_status) "V" then "valid" else "revoked"));
        ("serial", JStr r.(row_serial));
        ("subject", JStr r.(row_subject));
        ("expiration", JStr r.(row_exp_date));
        ("revocation_date", if String.eqb r.(row_rev_date) "" then JNull
                            else JStr r.(row_rev_date))].

(** The loop of the [list_certificates] endpoint. *)
Fixpoint collect_rows (lines : list string) : M (list json) :=
  match lines with
  | [] => mret []
  | line :: rest =>
      let parts := index_fields line in
      if 6 <=? List.length parts then
        (row <- unpack6 parts ;;
         certs <- collect_rows rest ;;
         mret (row_json row :: certs))
      else collect_rows rest
  end.

(** The body of the [list_certificates] endpoint once [index_file] is
    known. *)
Definition list_index_json (index_file : path) : M response :=
  e <- path_exists index_file ;;
  if negb e then mret (JsonBody (JObj [("certificates", JList [])])) else
  content <- read_text index_file ;;
  certs <- collect_rows (file_lines content) ;;
  mret (JsonBody (JObj [("certificates", JList certs);
                        ("count", JInt (Z.of_nat (List.length certs)))])).

(** The loop of [download_certificate] over its base directories. *)
Fixpoint download_from (base_dirs : list path) (filename : string) : M response :=
  match base_dirs with
  | [] => raise (HTTPException 404 ("File not found: " +:+ filename))
  | base_dir :: rest =>
      let file_path := div_str base_dir filename in
      e <- path_exists file_path ;;
      if e then mret (FileResponse file_path filename "application/x-pem-file")
      else download_from rest filename
  end.

Section ApiServer.

Variable openssl : list string -> gmap (list string) string ->
                   proc_result * gmap (list string) string.
Variable json_dumps : json -> string.
(** [ENVIRONMENT = os.getenv("ENV", "development")] *)
Variable ENVIRONMENT : string.


(** POST /api/v1/init *)
Definition api_initialize_ca (request : InitRequest) : M response :=
  try_except
    (set_if_given "country" request.(req_country) ;;
     set_if_given "state" request.(req_state) ;;
     set_if_given "locality" request.(req_locality) ;;
     set_if_given "organization" request.(req_organization) ;;
     set_if_given "root_ca_cn" request.(req_root_ca_cn) ;;
     set_if_given "inter_ca_cn" request.(req_inter_ca_cn) ;;
     init json_dumps false ;;
     cfg <- gets config ;;
     mret (StatusResponse true "Certificate management system initialized successfully"
             (Some (JObj [("config", cfg)]))))
    except_Exception_500.



(** POST /api/v1/csr: the answers to the two prompts of [create_csr]
    come from a [StringIO] put in place of [sys.stdin]. *)
Definition api_create_csr (request : CSRRequest) : M response :=
  old_stdin <- gets stdin ;;
  try_except
    (let dns := match request.(req_san_dns) with
                | Some (String _ _ as s) => s
                | _ => request.(req_common_name)
                end in
     let ip := match request.(req_san_ip) with Some s => s | None => "None" end in
     modify (fun w => set_stdin w (split_lines (dns +:+ nl +:+ ip +:+ nl))) ;;
     r <- create_csr openssl request.(req_common_name) request.(req_cert_type) ;;
     modify (fun w => set_stdin w old_stdin) ;;
     mret (StatusResponse true "CSR created successfully"
             (Some (JObj [("csr_file", JStr r.1); ("private_key", JStr r.2);
                          ("common_name", JStr request.(req_common_name));
                          ("type", JStr request.(req_cert_type))]))))
    (fun e => if is_Exception e
              then modify (fun w => set_stdin w old_stdin) ;;
                   raise (HTTPException 500 (str_exn e))
              else raise e).

(** POST /api/v1/certificates/sign *)
Definition api_sign_certificate (request : SignRequest) : M response :=
  try_except
    (csr_dir <- cert_mgr_path_attr "CSR_DIR" ;;
     let csr_path := div_str csr_dir request.(req_csr_filename) in
     e <- path_exists csr_path ;;
     if negb e then raise (HTTPException 404 ("CSR not found: " +:+ request.(req_csr_filename)))
     else
     cert_file <- sign_certificate openssl (path_str csr_path) request.(req_sign_cert_type) ;;
     days <- cfg_get "cert_days" ;;
     mret (StatusResponse true "Certificate signed successfully"
             (Some (JObj [("certificate", JStr cert_file); ("validity_days", days)]))))
    reraise_as_500.

(** POST /api/v1/certificates/revoke *)
Definition api_revoke_certificate (request : RevokeRequest) : M response :=
  try_except
    (issued_dir <- cert_mgr_path_attr "ISSUED_DIR" ;;
     let cert_path := div_str issued_dir request.(req_cert_filename) in
     e <- path_exists cert_path ;;
     if negb e then raise (HTTPException 404 ("Certificate not found: "
                                               +:+ request.(req_cert_filename)))
     else
     revoke_certificate openssl (path_str cert_path) ;;
     mret (StatusResponse true "Certificate revoked successfully"
             (Some (JObj [("certificate", JStr (path_str cert_path))]))))
    reraise_as_500.


(** GET /api/v1/certificates/list *)
Definition api_list_certificates : M response :=
  try_except
    (ca_dir <- cert_mgr_path_attr "CA_DIR" ;;
     let inter_ca_dir := ca_dir // "intermediate" in
     list_index_json (inter_ca_dir // "index.txt"))
    except_Exception_500.

(** GET /api/v1/certificates/download/{filename} (no try block) *)
Definition api_download_certificate (filename : string) : M response :=
  issued_dir <- cert_mgr_path_attr "ISSUED_DIR" ;;
  csr_dir <- cert_mgr_path_attr "CSR_DIR" ;;
  crl_dir <- cert_mgr_path_attr "CRL_DIR" ;;
  download_from [issued_dir; csr_dir; crl_dir] filename.


End ApiServer.

(* ===================================================================== *)
(** * Readings of the specification, and sample inputs *)
(* ===================================================================== *)

(** Replacing every occurrence of one character [c] by [new], character
    by character. *)
Fixpoint subst_char (c : ascii) (new : string) (s : string) : string :=
  match s with
  | EmptyString => EmptyString
  | String d s' => (if Ascii.eqb d c then new else String d EmptyString) +:+ subst_char c new s'
  end.

(** The template language as the specification reads it: literal text
    and [{{KEY}}] placeholders. *)
Inductive segment :=
| Lit (s : string)
| Hole (key : string).

Definition seg_text (g : segment) : string :=
  match g with Lit s => s | Hole k => placeholder k end.

Fixpoint template_text (gs : list segment) : string :=
  match gs with [] => EmptyString | g :: gs' => seg_text g +:+ template_text gs' end.

Fixpoint lookup_var (k : string) (variables : list (string * string)) : option string :=
  match variables with
  | [] => None
  | (k', v) :: rest => if String.eqb k k' then Some v else lookup_var k rest
  end.

(** A placeholder of a mapped key becomes the key's value; everything
    else stays. *)
Definition seg_fill (variables : list (string * string)) (g : segment) : string :=
  match g with
  | Lit s => s
  | Hole k => match lookup_var k variables with Some v => v | None => placeholder k end
  end.

Fixpoint filled_text (variables : list (string * string)) (gs : list segment) : string :=
  match gs with
  | [] => EmptyString
  | g :: gs' => seg_fill variables g +:+ filled_text variables gs'
  end.

(** Simultaneous substitution on an arbitrary text: a single left-to-right
    scan that, at each position, replaces the placeholder of the first
    key that matches there and never rescans inserted values. *)
Fixpoint first_match (variables : list (string * string)) (s : string)
  : option (string * string) :=
  match variables with
  | [] => None
  | (k, v) :: rest => if String.prefix (placeholder k) s then Some (k, v)
                      else first_match rest s
  end.

Fixpoint subst_all_from (variables : list (string * string)) (skip : nat) (s : string)
  : string :=
  match s with
  | EmptyString => EmptyString
  | String c s' =>
      match skip with
      | S n => subst_all_from variables n s'
      | O => match first_match variables s with
             | Some (k, v) => v +:+ subst_all_from variables
                                       (pred (String.length (placeholder k))) s'
             | None => String c (subst_all_from variables O s')
             end
      end
  end.

Definition render_simultaneous (variables : list (string * string)) (t : string) : string :=
  subst_all_from variables O t.

(** A template whose literal text contains no ['{'] and whose holes name
    keys without braces: every ["{{"] in its text opens a hole. *)
Definition seg_ok (g : segment) : bool :=
  match g with
  | Lit s => negb (PyStr.has_char "{" s)
  | Hole k => negb (PyStr.has_char "{" k) && negb (PyStr.has_char "}" k)
  end.

(** A variable whose key has no braces and whose value has no ['{']. *)
Definition var_ok (kv : string * string) : bool :=
  negb (PyStr.has_char "{" kv.1) && negb (PyStr.has_char "}" kv.1)
  && negb (PyStr.has_char "{" kv.2).

(** Filling the holes of one key with its value. *)
Fixpoint subst_hole (k v : string) (gs : list segment) : list segment :=
  match gs with
  | [] => []
  | Hole k' :: gs' => (if String.eqb k' k then Lit v else Hole k') :: subst_hole k v gs'
  | g :: gs' => g :: subst_hole k v gs'
  end.

(** The rows of the index that the listing reports: the lines with
    exactly six tab-separated fields. *)
Definition parse_row (parts : list string) : option index_row :=
  match parts with
  | [status; exp_date; rev_date; serial; _; subject] =>
      Some (mkRow status exp_date rev_date serial subject)
  | _ => None
  end.

Definition rows_of (lines : list string) : list index_row :=
  omap (fun line => parse_row (index_fields line)) lines.

(** The CA state files written by [init]. *)
Definition ROOT_CA_DIR : path := CA_DIR // "root".
Definition INTER_CA_DIR : path := CA_DIR // "intermediate".

Definition ca_state_files : list (path * string) :=
  [(ROOT_CA_DIR // "index.txt", EmptyString); (ROOT_CA_DIR // "serial", "1000" +:+ nl);
   (ROOT_CA_DIR // "crlnumber", "1000" +:+ nl);
   (INTER_CA_DIR // "index.txt", EmptyString); (INTER_CA_DIR // "serial", "1000" +:+ nl);
   (INTER_CA_DIR // "crlnumber", "1000" +:+ nl)].


(** Invariants over runs: [I] holds after [m] whatever [m] does, and
    [Q] holds after every successful run of [m] from a state in [P]. *)
Definition preserves (I : world -> Prop) {A} (m : M A) : Prop :=
  forall w, I w -> I (m w).2.

Definition on_success (P : world -> Prop) {A} (m : M A) (Q : world -> Prop) : Prop :=
  forall w a w', P w -> m w = (Ok a, w') -> Q w'.

(** File [p] holds [c]. *)
Definition has_content (p : path) (c : string) (w : world) : Prop :=
  w.(files) !! p = Some c.

(** Nothing exists at [p]. *)
Definition fresh (p : path) (w : world) : Prop :=
  w.(files) !! p = None /\ p ∉ w.(dirs).

Definition absent_or (p : path) (c : string) (w : world) : Prop :=
  has_content p c w \/ fresh p w.

(** [m] changes neither files nor directories. *)
Definition fd_same {A} (m : M A) : Prop :=
  forall w, (m w).2.(files) = w.(files) /\ (m w).2.(dirs) = w.(dirs).

(** [m] touches no file and creates no directory deeper than [n]
    components. *)
Definition grows_below (n : nat) {A} (m : M A) : Prop :=
  forall w, (forall q, n < List.length q -> (m w).2.(files) !! q = w.(files) !! q) /\
            (forall d, d ∈ (m w).2.(dirs) -> d ∈ w.(dirs) \/ List.length d <= n).


(** The argv of the revocation step for [cert_path]. *)
Definition revoke_cmd (cert_path : path) : list string :=
  ["openssl"; "ca"; "-config"; path_str (CONF_DIR // "intermediate.cnf");
   "-revoke"; path_str cert_path].

Definition ROOT_CA_CERT : path := ROOT_CA_DIR // "certs" // "ca.cert.pem".
Definition INTER_CA_CERT : path := INTER_CA_DIR // "certs" // "intermediate.cert.pem".

Module Sample.

(** A tool that always succeeds and one that always fails. *)
Definition tool_ok (cmd : list string) (fs : gmap (list string) string)
  : proc_result * gmap (list string) string := (mkProc 0 "ok" "", fs).

Definition dumps (j : json) : string := py_repr j.
Definition loads (s : string) : option json := None.

Definition default_config : json :=
  JObj [("country", JStr "US"); ("state", JStr "California");
        ("locality", JStr "San Francisco"); ("organization", JStr "Local Development CA");
        ("root_ca_cn", JStr "Root CA host"); ("inter_ca_cn", JStr "Intermediate CA host");
        ("root_ca_days", JInt 3650); ("inter_ca_days", JInt 1825);
        ("cert_days", JInt 365); ("fqdn", JStr "host")].

Definition base_dirs : gset (list string) :=
  list_to_set [["certmgr"]; BASE_DIR; CONF_DIR; CA_DIR; CSR_DIR; PRIVATE_DIR; ISSUED_DIR;
               CRL_DIR; ROOT_CA_DIR; INTER_CA_DIR; ROOT_CA_DIR // "certs";
               INTER_CA_DIR // "certs"].

Definition world_with (fs : gmap (list string) string) (input_lines : list string) : world :=
  mkWorld fs base_dirs ∅ input_lines [] [] [] default_config BASE_DIR
    "20260101_120000" "host".

Definition TAB : string := String tab EmptyString.

(** A tool that succeeds and writes ["PEM"] to the file after [-out]. *)
Fixpoint out_arg (cmd : list string) : option string :=
  match cmd with
  | flag :: ((p :: _) as rest) => if String.eqb flag "-out" then Some p else out_arg rest
  | _ => None
  end.

Definition tool_out (cmd : list string) (fs : gmap (list string) string)
  : proc_result * gmap (list string) string :=
  (mkProc 0 "ok" "", match out_arg cmd with
                     | Some p => <[div_str [] p := "PEM"]> fs
                     | None => fs
                     end).

(** The templates of [conf/]. *)
Definition templates : gmap (list string) string :=
  list_to_map [(CONF_DIR // "rootca.cnf.template", "CN = {{ROOT_CA_CN}}");
               (CONF_DIR // "intermediate.cnf.template", "CN = {{INTER_CA_CN}}");
               (CONF_DIR // "csr.cnf.template", "CN = {{CERT_CN}}")].

(** A line of an index file with the given tab-separated fields. *)
Definition index_line (fields : list string) : string := PyStr.join TAB fields +:+ nl.

(** A [json.load] that knows the text of the default configuration. *)
Definition loads_default (s : string) : option json :=
  if String.eqb s (dumps default_config) then Some default_config else None.

End Sample.

(** [m] only appends lines to standard output. *)
Definition only_prints {A} (m : M A) : Prop :=
  forall w, exists out, (m w).2 = set_stdout w (w.(stdout) ++ out).

(** [m] leaves [self.config] as it is. *)
Definition cfg_same {A} (m : M A) : Prop :=
  forall w, (m w).2.(config) = w.(config).

(** [CONF_DIR / "certmgr_config.json"] *)
Definition CONFIG_FILE : path := CONF_DIR // "certmgr_config.json".

(** The configuration file holds [json.dump] of [self.config]. *)
Definition config_saved (json_dumps : json -> string) (w : world) : Prop :=
  w.(files) !! CONFIG_FILE = Some (json_dumps w.(config)).

(** The dict after [if value: config[k] = value]. *)
Definition set_given_kvs (k : string) (o : option string) (kvs : list (string * json))
  : list (string * json) :=
  match o with
  | Some (String _ _ as s) => assoc_set k (JStr s) kvs
  | _ => kvs
  end.

(** The fields of an [InitRequest] and the configuration keys they set,
    in the order of [initialize_ca]. *)
Definition request_updates (r : InitRequest) : list (string * option string) :=
  [("country", r.(req_country)); ("state", r.(req_state));
   ("locality", r.(req_locality)); ("organization", r.(req_organization));
   ("root_ca_cn", r.(req_root_ca_cn)); ("inter_ca_cn", r.(req_inter_ca_cn))].

(* ===================================================================== *)
(** * Facts about the string functions *)
(* ===================================================================== *)

Module StrFacts.

Lemma app_assoc_str (a b c : string) : (a +:+ b) +:+ c = a +:+ (b +:+ c).
Proof. induction a as [|x a IH]; cbn [String.append]; [done|by f_equal]. Qed.

Lemma app_nil_r_str (a : string) : a +:+ EmptyString = a.
Proof. induction a as [|x a IH]; cbn [String.append]; [done|by f_equal]. Qed.

Lemma has_char_app (c : ascii) (a b : string) :
  PyStr.has_char c (a +:+ b) = PyStr.has_char c a || PyStr.has_char c b.
Proof.
  induction a as [|x a IH]; cbn [String.append PyStr.has_char]; [done|].
  by rewrite IH, orb_assoc.
Qed.

Lemma ascii_eqb_false (a b : ascii) : a <> b -> Ascii.eqb a b = false.
Proof. intros H. by apply Ascii.eqb_neq. Qed.

Lemma prefix_nil (s : string) : String.prefix EmptyString s = true.
Proof. by destruct s. Qed.

(** [s.replace(c, new)] for a single character [c] is [subst_char]. *)
Lemma replace_one_char (c : ascii) (new s : string) :
  PyStr.replace s (String c EmptyString) new = subst_char c new s.
Proof.
  unfold PyStr.replace. induction s as [|d s IH]; [done|].
  cbn [PyStr.replace_from String.prefix subst_char].
  destruct (ascii_dec c d) as [<-|Hne].
  - rewrite Ascii.eqb_refl, prefix_nil. simpl. by rewrite IH.
  - rewrite ascii_eqb_false by congruence. simpl. by rewrite IH.
Qed.

Lemma subst_char_removes (c : ascii) (new s : string) :
  PyStr.has_char c new = false -> PyStr.has_char c (subst_char c new s) = false.
Proof.
  intros Hnew. induction s as [|d s IH]; [done|].
  cbn [subst_char]. rewrite has_char_app, IH, orb_false_r.
  destruct (Ascii.eqb d c) eqn:E; [done|].
  simpl. rewrite orb_false_r. apply Ascii.eqb_neq. apply Ascii.eqb_neq in E. congruence.
Qed.

Lemma subst_char_keeps_absent (x c : ascii) (new s : string) :
  PyStr.has_char x new = false -> PyStr.has_char x s = false ->
  PyStr.has_char x (subst_char c new s) = false.
Proof.
  intros Hnew. induction s as [|d s IH]; [done|].
  cbn [PyStr.has_char subst_char]. intros [Hd Hs]%orb_false_iff.
  rewrite has_char_app, IH by done. rewrite orb_false_r.
  destruct (Ascii.eqb d c); [done|]. simpl. by rewrite Hd.
Qed.

(** The scan of [replace_from] goes past text without ['{'] when the
    pattern starts with ['{']. *)
Lemma replace_from_lit (r v s t : string) :
  PyStr.has_char "{"%char s = false ->
  PyStr.replace_from (String "{" r) v O (s +:+ t) = s +:+ PyStr.replace_from (String "{" r) v O t.
Proof.
  induction s as [|a s IH]; [done|].
  cbn [PyStr.has_char]. intros [Ha Hs]%orb_false_iff.
  cbn [String.append PyStr.replace_from String.prefix].
  destruct (ascii_dec "{" a) as [<-|Hne]; [by rewrite Ascii.eqb_refl in Ha|].
  simpl. by rewrite IH.
Qed.

Lemma replace_from_skip (old v x t : string) :
  PyStr.replace_from old v (String.length x) (x +:+ t) = PyStr.replace_from old v O t.
Proof. induction x as [|a x IH]; simpl; [done|exact IH]. Qed.

Lemma prefix_app (a t : string) : String.prefix a (a +:+ t) = true.
Proof.
  induction a as [|c a IH]; [apply prefix_nil|]. cbn [String.append String.prefix].
  destruct (ascii_dec c c); [exact IH|congruence].
Qed.

Lemma replace_from_match (c : ascii) (r v t : string) :
  PyStr.replace_from (String c r) v O (String c r +:+ t)
  = v +:+ PyStr.replace_from (String c r) v O t.
Proof.
  pose proof (prefix_app (String c r) t) as H. cbn [String.append] in H |- *.
  cbn [PyStr.replace_from]. rewrite H. cbn [String.length pred].
  by rewrite replace_from_skip.
Qed.

Lemma prefix_key_neq (k k' t : string) :
  k <> k' -> PyStr.has_char "}"%char k = false -> PyStr.has_char "}"%char k' = false ->
  String.prefix (k +:+ "}}") (k' +:+ "}}" +:+ t) = false.
Proof.
  revert k'. induction k as [|a k IH]; intros k' Hne Hk Hk'.
  - destruct k' as [|b k']; [done|].
    cbn [PyStr.has_char] in Hk'. apply orb_false_iff in Hk' as [Hb _].
    cbn [String.append String.prefix].
    destruct (ascii_dec "}" b) as [<-|]; [by rewrite Ascii.eqb_refl in Hb|done].
  - cbn [PyStr.has_char] in Hk. apply orb_false_iff in Hk as [Ha Hk].
    destruct k' as [|b k'].
    + cbn [String.append String.prefix].
      destruct (ascii_dec a "}") as [->|]; [by rewrite Ascii.eqb_refl in Ha|done].
    + cbn [PyStr.has_char] in Hk'. apply orb_false_iff in Hk' as [_ Hk'].
      cbn [String.append String.prefix].
      destruct (ascii_dec a b) as [<-|]; [|done].
      apply IH; [congruence|done|done].
Qed.
Lemma placeholder_unfold (k : string) :
  placeholder k = String "{" (String "{" (k +:+ "}}")).
Proof. reflexivity. Qed.

Lemma placeholder_app (k t : string) :
  placeholder k +:+ t = String "{" (String "{" (k +:+ ("}}" +:+ t))).
Proof. rewrite placeholder_unfold. cbn [String.append]. by rewrite app_assoc_str. Qed.

Lemma prefix_cons_same (c : ascii) (a b : string) :
  String.prefix (String c a) (String c b) = String.prefix a b.
Proof. cbn [String.prefix]. by destruct (ascii_dec c c). Qed.

Lemma prefix_head_neq (c d : ascii) (a b : string) :
  c <> d -> String.prefix (String c a) (String d b) = false.
Proof. intros H. cbn [String.prefix]. by destruct (ascii_dec c d). Qed.

Lemma replace_from_nomatch (old v : string) (c : ascii) (s : string) :
  String.prefix old (String c s) = false ->
  PyStr.replace_from old v O (String c s) = String c (PyStr.replace_from old v O s).
Proof. intros H. cbn [PyStr.replace_from]. by rewrite H. Qed.

Lemma replace_template (k v : string) (gs : list segment) :
  negb (PyStr.has_char "{" k) && negb (PyStr.has_char "}" k) = true ->
  forallb seg_ok gs = true ->
  PyStr.replace (template_text gs) (placeholder k) v = template_text (subst_hole k v gs).
Proof.
  intros Hk Hgs. apply andb_true_iff in Hk as [Hk1 Hk2].
  apply negb_true_iff in Hk1, Hk2.
  rewrite placeholder_unfold. cbn [PyStr.replace]. rewrite <- placeholder_unfold.
  induction gs as [|g gs IH]; [done|].
  cbn [forallb] in Hgs. apply andb_true_iff in Hgs as [Hg Hgs].
  destruct g as [s|k']; cbn [template_text seg_text subst_hole seg_ok] in *.
  - apply negb_true_iff in Hg. rewrite placeholder_unfold, replace_from_lit by done.
    rewrite <- placeholder_unfold. by rewrite IH.
  - apply andb_true_iff in Hg as [Hg1 Hg2]. apply negb_true_iff in Hg1, Hg2.
    destruct (String.eqb_spec k' k) as [->|Hne].
    +
      pose proof (replace_from_match "{" (String "{" (k +:+ "}}")) v (template_text gs)) as H.
      rewrite <- placeholder_unfold in H. rewrite H. cbn [template_text seg_text]. by rewrite IH.
    + cbn [template_text seg_text]. rewrite !placeholder_app.
      rewrite (placeholder_unfold k).
      rewrite replace_from_nomatch
        by (rewrite !prefix_cons_same; by apply prefix_key_neq).
      rewrite replace_from_nomatch.
      2:{ rewrite prefix_cons_same. destruct k' as [|b k''].
          - by apply prefix_head_neq.
          - cbn [PyStr.has_char] in Hg1. apply orb_false_iff in Hg1 as [Hb _].
            cbn [String.append]. apply prefix_head_neq. intros <-.
            by rewrite Ascii.eqb_refl in Hb. }
      rewrite replace_from_lit by done. rewrite replace_from_lit by done.
      rewrite <- placeholder_unfold. by rewrite IH.
Qed.
Lemma subst_hole_ok (k v : string) (gs : list segment) :
  PyStr.has_char "{" v = false -> forallb seg_ok gs = true ->
  forallb seg_ok (subst_hole k v gs) = true.
Proof.
  intros Hv. induction gs as [|[s|k'] gs IH]; [done| |]; cbn [forallb subst_hole];
    intros [Hg Hgs]%andb_true_iff; rewrite IH by done; rewrite andb_true_r.
  - exact Hg.
  - destruct (String.eqb k' k); cbn [seg_ok]; [by rewrite Hv|exact Hg].
Qed.

Lemma filled_subst_hole (k v : string) (vars : list (string * string)) (gs : list segment) :
  filled_text vars (subst_hole k v gs) = filled_text ((k, v) :: vars) gs.
Proof.
  induction gs as [|[s|k'] gs IH]; [done| |]; cbn [filled_text subst_hole].
  - by rewrite IH.
  - rewrite IH. cbn [seg_fill lookup_var]. by destruct (String.eqb k' k).
Qed.

Lemma filled_nil (gs : list segment) : filled_text [] gs = template_text gs.
Proof. induction gs as [|[s|k] gs IH]; cbn; by rewrite ?IH. Qed.

End StrFacts.

(* ===================================================================== *)
(** * Template rendering *)
(* ===================================================================== *)

Module Render.
Import StrFacts.

(** C3 (counterexample): the replacements run one key after another, each
    over the output of the previous one, so a value that contains the
    placeholder of a later key is itself substituted, unlike a
    simultaneous substitution, which leaves inserted values alone. *)
Lemma render_content_sequential :
  render_content [("A", placeholder "B"); ("B", "x")] (placeholder "A") = "x"
  /\ render_simultaneous [("A", placeholder "B"); ("B", "x")] (placeholder "A")
     = placeholder "B".
Proof. split; reflexivity. Qed.

(** C3 (amended): when no key contains a brace, no value contains ['{'],
    and the literal text of the template contains no ['{'], rendering
    replaces each placeholder [{{KEY}}] of a mapped key by the value of
    [KEY] (the first binding of [KEY]) and leaves the rest of the
    template as it is. *)
Theorem render_content_fills (vars : list (string * string)) (gs : list segment) :
  forallb var_ok vars = true -> forallb seg_ok gs = true ->
  render_content vars (template_text gs) = filled_text vars gs.
Proof.
  revert gs. induction vars as [|[k v] vars IH]; intros gs Hvars Hgs.
  - by rewrite filled_nil.
  - cbn [forallb] in Hvars. apply andb_true_iff in Hvars as [Hkv Hvars].
    unfold var_ok in Hkv. cbn [fst snd] in Hkv.
    apply andb_true_iff in Hkv as [Hk Hv]. apply negb_true_iff in Hv.
    unfold render_content. cbn [fold_left fst snd].
    rewrite replace_template by done.
    fold (render_content vars (template_text (subst_hole k v gs))).
    rewrite IH by (done || by apply subst_hole_ok).
    apply filled_subst_hole.
Qed.

Lemma render_content_fills_witness :
  forallb var_ok [("NAME", "World"); ("COUNTRY", "US")] = true
  /\ forallb seg_ok [Lit "Hello "; Hole "NAME"; Lit ", your country is "; Hole "COUNTRY"] = true
  /\ render_content [("NAME", "World"); ("COUNTRY", "US")]
       "Hello {{NAME}}, your country is {{COUNTRY}}"
     = "Hello World, your country is US".
Proof.
  split; [reflexivity|]. split; [reflexivity|].
  change "Hello {{NAME}}, your country is {{COUNTRY}}" with
    (template_text [Lit "Hello "; Hole "NAME"; Lit ", your country is "; Hole "COUNTRY"]).
  rewrite (render_content_fills [("NAME", "World"); ("COUNTRY", "US")]
             [Lit "Hello "; Hole "NAME"; Lit ", your country is "; Hole "COUNTRY"]);
    reflexivity.
Defined.

End Render.

(* ===================================================================== *)
(** * File names of a CSR *)
(* ===================================================================== *)

Module Names.
Import StrFacts.

(** C9: the name [create_csr] builds its key, CSR and config file names
    from is the common name with every ['*'] replaced by [wildcard] and
    then every ['/'] by ['_']; it contains neither ['*'] nor ['/']. *)
Theorem safe_name_sanitized (cn : string) :
  safe_name cn = subst_char "/" "_" (subst_char "*" "wildcard" cn)
  /\ PyStr.has_char "*" (safe_name cn) = false
  /\ PyStr.has_char "/" (safe_name cn) = false.
Proof.
  unfold safe_name. rewrite !replace_one_char. split; [done|]. split.
  - apply subst_char_keeps_absent; [done|]. by apply subst_char_removes.
  - by apply subst_char_removes.
Qed.

End Names.

(* ===================================================================== *)
(** * Failures of the external tool *)
(* ===================================================================== *)

Module ToolErrors.



End ToolErrors.
Module MonadFacts.

Lemma bind_ok {A B} (m : M A) (k : A -> M B) (w w' : world) (a : A) :
  m w = (Ok a, w') -> bindM m k w = k a w'.
Proof. intros H. unfold bindM, mbind, M_bind. by rewrite H. Qed.

Lemma bind_exc {A B} (m : M A) (k : A -> M B) (w w' : world) (e : exn) :
  m w = (Exc e, w') -> bindM m k w = (Exc e, w').
Proof. intros H. unfold bindM, mbind, M_bind. by rewrite H. Qed.

Lemma seq_ok {A B} (m : M A) (k : M B) (w w' : world) (a : A) :
  m w = (Ok a, w') -> (m ;; k) w = k w'.
Proof. intros H. unfold mbind, M_bind. by rewrite H. Qed.

Lemma seq_exc {A B} (m : M A) (k : M B) (w w' : world) (e : exn) :
  m w = (Exc e, w') -> (m ;; k) w = (Exc e, w').
Proof. intros H. unfold mbind, M_bind. by rewrite H. Qed.

Lemma print_eq (s : string) (w : world) :
  print s w = (Ok tt, set_stdout w (w.(stdout) ++ [s])).
Proof. reflexivity. Qed.

Lemma exists_set_stdout (w : world) (o : list string) (p : path) :
  is_dir (set_stdout w o) p = is_dir w p /\ is_file (set_stdout w o) p = is_file w p.
Proof. done. Qed.

Lemma confirm_overwrite_declined (what : string) (p : path) (w : world)
    (answer : string) (rest : list string) :
  is_dir w p || is_file w p = true -> w.(stdin) = answer :: rest ->
  String.eqb (PyStr.lower answer) "yes" = false ->
  confirm_overwrite what p w
  = (Ok false, set_stdin (set_stdout w (w.(stdout) ++
       ["⚠ " +:+ what +:+ " already exists: " +:+ path_str p; "Overwrite? (yes/no): "])) rest).
Proof.
  intros Hex Hin Hno. unfold confirm_overwrite, path_exists, gets.
  rewrite (bind_ok _ _ w w (is_dir w p || is_file w p)) by reflexivity. rewrite Hex.
  rewrite (seq_ok _ _ _ _ _ (print_eq _ _)). unfold input.
  erewrite (bind_ok _ _ _ _ answer).
  2:{ rewrite (seq_ok _ _ _ _ _ (print_eq _ _)). unfold read_line. cbn [stdin set_stdout]. rewrite Hin. reflexivity. }
  cbn. rewrite Hno. by rewrite <- app_assoc.
Qed.

End MonadFacts.

Module Overwrite.
Import MonadFacts.

(** C10: when the root (for [inter = false]) or intermediate (for
    [inter = true]) CA certificate exists and the answer to the
    confirmation is not [yes] in any letter case, the CA creation returns
    at once: only its messages are printed and the answer is consumed; no
    file, directory or mode changes and the tool is not invoked. *)
Theorem create_ca_declined (tool : list string -> gmap (list string) string ->
                                   proc_result * gmap (list string) string)
    (inter : bool) (w : world) (answer : string) (rest : list string) :
  let cert_file := if inter then INTER_CA_CERT else ROOT_CA_CERT in
  let create := if inter then create_intermediate_ca tool else create_root_ca tool in
  is_dir w cert_file || is_file w cert_file = true ->
  w.(stdin) = answer :: rest ->
  String.eqb (PyStr.lower answer) "yes" = false ->
  exists out, create w = (Ok tt, set_stdin (set_stdout w (w.(stdout) ++ out)) rest).
Proof.
  intros cert_file create Hex Hin Hno. subst cert_file create.
  destruct inter; [unfold create_intermediate_ca|unfold create_root_ca];
    rewrite (seq_ok _ _ _ _ _ (print_eq _ _));
    (erewrite (bind_ok _ _ _ _ false);
     [|eapply confirm_overwrite_declined; [exact Hex|exact Hin|exact Hno]]);
    eexists; cbn; rewrite <- app_assoc; reflexivity.
Qed.

Lemma create_ca_declined_witness :
  let w := Sample.world_with {[ROOT_CA_CERT := "PEM"]} ["No"] in
  (is_dir w ROOT_CA_CERT || is_file w ROOT_CA_CERT = true)
  /\ w.(stdin) = "No" :: []
  /\ String.eqb (PyStr.lower "No") "yes" = false
  /\ exists out, create_root_ca Sample.tool_ok w = (Ok tt, set_stdin (set_stdout w (w.(stdout) ++ out)) []).
Proof.
  intros w. split; [reflexivity|]. split; [reflexivity|]. split; [reflexivity|].
  exact (create_ca_declined Sample.tool_ok false w "No" [] eq_refl eq_refl eq_refl).
Defined.

End Overwrite.
Module Revocation.
Import MonadFacts.

Lemma run_openssl_calls (tool : list string -> gmap (list string) string ->
                                proc_result * gmap (list string) string)
    (args : list string) (w : world) :
  (_run_openssl tool args w).2.(calls) = w.(calls) ++ [("openssl" :: args)].
Proof.
  unfold _run_openssl, bindM, mbind, M_bind, print, modify, subprocess_run. cbn.
  destruct (tool ("openssl" :: args) (files w)) as [r fs']. cbn.
  by destruct (negb (returncode r =? 0)%Z).
Qed.

Lemma update_crl_calls (tool : list string -> gmap (list string) string ->
                               proc_result * gmap (list string) string) (w : world) :
  exists rest, (update_crl tool w).2.(calls) = w.(calls) ++ gencrl_cmd :: rest.
Proof.
  unfold update_crl. rewrite (seq_ok _ _ _ _ _ (print_eq _ _)).
  unfold mbind at 1, M_bind at 1.
  pose proof (run_openssl_calls tool
    ["ca"; "-config"; path_str (CONF_DIR // "intermediate.cnf");
     "-gencrl"; "-out"; path_str (CRL_DIR // "intermediate.crl.pem")]
    (set_stdout w (stdout w ++ ["📋 Updating CRL"]))) as H.
  destruct (_run_openssl _ _ _) as [[r|e] w1] eqn:E; cbn [snd] in H.
  - rewrite (seq_ok _ _ _ _ _ (print_eq _ _)).
    unfold bindM, mbind, M_bind.
    pose proof (run_openssl_calls tool
      ["crl"; "-in"; path_str (CRL_DIR // "intermediate.crl.pem"); "-noout"; "-text"]
      (set_stdout w1 (stdout w1 ++ ["✓ CRL updated: " +:+ path_str (CRL_DIR // "intermediate.crl.pem")]))) as H2.
    destruct (_run_openssl tool _ (set_stdout w1 _)) as [[r2|e2] w2] eqn:E2;
      cbn in H2, H |- *; eexists; rewrite H2, H; by rewrite <- !app_assoc.
  - exists []. cbn [snd]. exact H.
Qed.

Lemma run_openssl_success (tool : list string -> gmap (list string) string ->
                                  proc_result * gmap (list string) string)
    (args : list string) (w : world) :
  returncode (tool ("openssl" :: args) w.(files)).1 = 0%Z ->
  let r := (tool ("openssl" :: args) w.(files)).1 in
  _run_openssl tool args w
  = (Ok (mkProc r.(returncode) (translate_newlines r.(proc_stdout))
                (translate_newlines r.(proc_stderr))),
     set_calls (set_files (set_stdout w (w.(stdout) ++ ["→ Running: " +:+ PyStr.join " " ("openssl" :: args)]))
                          (tool ("openssl" :: args) w.(files)).2)
               (w.(calls) ++ [("openssl" :: args)])).
Proof.
  intros Hr. unfold _run_openssl, bindM, mbind, M_bind, print, modify, subprocess_run. cbn.
  destruct (tool ("openssl" :: args) (files w)) as [r fs']. cbn in Hr |- *.
  by rewrite Hr.
Qed.

(** C8: once the certificate exists and the tool's revoke step succeeds,
    [revoke_certificate] continues with the whole of [update_crl], whose
    first tool call regenerates [crl/intermediate.crl.pem]: the calls made
    are the revoke step, then the CRL generation, then the rest of the
    update. *)
Theorem revoke_regenerates_crl (tool : list string -> gmap (list string) string ->
                                       proc_result * gmap (list string) string)
    (cert_file : string) (w : world) :
  let cert_path := div_str w.(cwd) cert_file in
  is_dir w cert_path || is_file w cert_path = true ->
  returncode (tool (revoke_cmd cert_path) w.(files)).1 = 0%Z ->
  (exists w1, revoke_certificate tool cert_file w = update_crl tool w1
              /\ w1.(calls) = w.(calls) ++ [revoke_cmd cert_path])
  /\ exists rest, (revoke_certificate tool cert_file w).2.(calls)
                  = w.(calls) ++ revoke_cmd cert_path :: gencrl_cmd :: rest.
Proof.
  intros cert_path Hex Hr.
  assert (Hrev : exists w1, revoke_certificate tool cert_file w = update_crl tool w1
                            /\ w1.(calls) = w.(calls) ++ [revoke_cmd cert_path]).
  { unfold revoke_certificate. rewrite (seq_ok _ _ _ _ _ (print_eq _ _)).
    unfold make_path, path_exists.
    rewrite (bind_ok _ _ _ _ cert_path) by reflexivity.
    assert (Hpe : forall o, gets (fun w => is_dir w cert_path || is_file w cert_path)
                                 (set_stdout w o) = (Ok true, set_stdout w o))
      by (intros o; exact (f_equal (fun b => (Ok b, set_stdout w o)) Hex)).
    rewrite (bind_ok _ _ _ _ true (Hpe _)). cbn [negb].
    rewrite (seq_ok _ _ _ _ _ (run_openssl_success tool _ (set_stdout w _) Hr)).
    rewrite (seq_ok _ _ _ _ _ (print_eq _ _)).
    eexists. split; reflexivity. }
  split; [exact Hrev|].
  destruct Hrev as (w1 & -> & Hw1).
  destruct (update_crl_calls tool w1) as [rest Hrest].
  exists rest. rewrite Hrest, Hw1. by rewrite <- app_assoc.
Qed.

Lemma revoke_regenerates_crl_witness :
  let w := Sample.world_with {[INTER_CA_DIR // "certs" // "server.cert.pem" := "PEM"]} [] in
  let cert_path := div_str w.(cwd) "ca/intermediate/certs/server.cert.pem" in
  (is_dir w cert_path || is_file w cert_path = true)
  /\ returncode (Sample.tool_ok (revoke_cmd cert_path) w.(files)).1 = 0%Z
  /\ exists rest, (revoke_certificate Sample.tool_ok "ca/intermediate/certs/server.cert.pem" w).2.(calls)
                  = w.(calls) ++ revoke_cmd cert_path :: gencrl_cmd :: rest.
Proof.
  intros w cert_path. split; [vm_compute; reflexivity|]. split; [reflexivity|].
  exact (proj2 (revoke_regenerates_crl Sample.tool_ok "ca/intermediate/certs/server.cert.pem" w
                  (eq_refl : is_dir w cert_path || is_file w cert_path = true) eq_refl)).
Defined.

End Revocation.
Module RestApi.
Import MonadFacts.

Lemma api_sign_certificate_500 tool req w :
  api_sign_certificate tool req w = (Exc (HTTPException 500 (no_attr "CSR_DIR")), w).
Proof. reflexivity. Qed.

Lemma api_revoke_certificate_500 tool req w :
  api_revoke_certificate tool req w = (Exc (HTTPException 500 (no_attr "ISSUED_DIR")), w).
Proof. reflexivity. Qed.

Lemma api_list_certificates_500 w :
  api_list_certificates w = (Exc (HTTPException 500 (no_attr "CA_DIR")), w).
Proof. reflexivity. Qed.

Lemma api_download_certificate_attr filename w :
  api_download_certificate filename w = (Exc (AttributeError "CertificateManager" "ISSUED_DIR"), w).
Proof. reflexivity. Qed.

Lemma path_exists_false (p : path) (w : world) (o : list string) :
  is_dir w p || is_file w p = false ->
  path_exists p (set_stdout w o) = (Ok false, set_stdout w o).
Proof. intros H. exact (f_equal (fun b => (Ok b, set_stdout w o)) H). Qed.

Lemma sign_certificate_missing tool csr_file cert_type w :
  let csr_path := div_str w.(cwd) csr_file in
  is_dir w csr_path || is_file w csr_path = false ->
  sign_certificate tool csr_file cert_type w
  = (Exc (SystemExit 1),
     set_stderr (set_stdout w (w.(stdout) ++ ["✍ Signing certificate: " +:+ csr_file]))
                (w.(stderr) ++ ["✗ CSR not found: " +:+ csr_file])).
Proof.
  intros csr_path H. unfold sign_certificate.
  rewrite (seq_ok _ _ _ _ _ (print_eq _ _)).
  rewrite (bind_ok _ _ _ _ csr_path) by reflexivity.
  rewrite (bind_ok _ _ _ _ false (path_exists_false _ _ _ H)). reflexivity.
Qed.

Lemma revoke_certificate_missing tool cert_file w :
  let cert_path := div_str w.(cwd) cert_file in
  is_dir w cert_path || is_file w cert_path = false ->
  revoke_certificate tool cert_file w
  = (Exc (SystemExit 1),
     set_stderr (set_stdout w (w.(stdout) ++ ["🚫 Revoking certificate: " +:+ cert_file]))
                (w.(stderr) ++ ["✗ Certificate not found: " +:+ cert_file])).
Proof.
  intros cert_path H. unfold revoke_certificate.
  rewrite (seq_ok _ _ _ _ _ (print_eq _ _)).
  rewrite (bind_ok _ _ _ _ cert_path) by reflexivity.
  rewrite (bind_ok _ _ _ _ false (path_exists_false _ _ _ H)). reflexivity.
Qed.

(** C4: the REST endpoints never reach their existence checks:
    [cert_mgr.CSR_DIR] and [cert_mgr.ISSUED_DIR] raise [AttributeError],
    so signing and revoking answer 500 and downloading fails with an
    unhandled error (500), never 404, also for files that do not exist.
    The CLI commands do abort on a missing file with [sys.exit(1)]
    before any tool call and without touching a file. *)
Theorem missing_inputs_not_found (tool : list string -> gmap (list string) string ->
                                         proc_result * gmap (list string) string)
    (req : SignRequest) (rreq : RevokeRequest)
    (filename csr_file cert_type cert_file : string) (w : world) :
  let csr_path := div_str w.(cwd) csr_file in
  let cert_path := div_str w.(cwd) cert_file in
  is_dir w csr_path || is_file w csr_path = false ->
  is_dir w cert_path || is_file w cert_path = false ->
  http_status (api_sign_certificate tool req w).1 = Some 500%Z
  /\ http_status (api_revoke_certificate tool rreq w).1 = Some 500%Z
  /\ http_status (api_download_certificate filename w).1 = Some 500%Z
  /\ (exists w', sign_certificate tool csr_file cert_type w = (Exc (SystemExit 1), w')
                 /\ w'.(calls) = w.(calls) /\ w'.(files) = w.(files))
  /\ (exists w', revoke_certificate tool cert_file w = (Exc (SystemExit 1), w')
                 /\ w'.(calls) = w.(calls) /\ w'.(files) = w.(files)).
Proof.
  intros csr_path cert_path Hcsr Hcert.
  rewrite api_sign_certificate_500, api_revoke_certificate_500, api_download_certificate_attr.
  split; [done|]. split; [done|]. split; [done|]. split.
  - eexists. split; [exact (sign_certificate_missing tool csr_file cert_type w Hcsr)|done].
  - eexists. split; [exact (revoke_certificate_missing tool cert_file w Hcert)|done].
Qed.

Lemma missing_inputs_not_found_witness :
  let w := Sample.world_with ∅ [] in
  (is_dir w (div_str w.(cwd) "csr/missing.csr.pem")
   || is_file w (div_str w.(cwd) "csr/missing.csr.pem") = false)
  /\ (is_dir w (div_str w.(cwd) "issued_certificates/missing.cert.pem")
      || is_file w (div_str w.(cwd) "issued_certificates/missing.cert.pem") = false)
  /\ http_status (api_sign_certificate Sample.tool_ok (mkSignRequest "missing.csr.pem" "server") w).1
     = Some 500%Z
  /\ http_status (api_download_certificate "nonexistent.pem" w).1 = Some 500%Z.
Proof.
  intros w. split; [vm_compute; reflexivity|]. split; [vm_compute; reflexivity|].
  pose proof (missing_inputs_not_found Sample.tool_ok (mkSignRequest "missing.csr.pem" "server")
                (mkRevokeRequest "missing.cert.pem") "nonexistent.pem" "csr/missing.csr.pem" "server"
                "issued_certificates/missing.cert.pem" w) as H.
  destruct H as (H1 & _ & H3 & _); [vm_compute; reflexivity|vm_compute; reflexivity|].
  split; [exact H1|exact H3].
Defined.

(** C7: the REST endpoints for signCert, revokeCert and listCerts never
    run the operation: each fails with 500 and leaves the state as it was,
    while the CLI command runs it (here the signing calls the tool). *)
Theorem rest_does_not_mirror_cli :
  (forall tool req w, api_sign_certificate tool req w
                      = (Exc (HTTPException 500 (no_attr "CSR_DIR")), w))
  /\ (forall tool req w, api_revoke_certificate tool req w
                         = (Exc (HTTPException 500 (no_attr "ISSUED_DIR")), w))
  /\ (forall w, api_list_certificates w = (Exc (HTTPException 500 (no_attr "CA_DIR")), w))
  /\ let w := Sample.world_with {[CSR_DIR // "x.csr.pem" := "CSR"]} [] in
     (main Sample.tool_ok Sample.dumps Sample.loads
           (Some (SignCert "csr/x.csr.pem" "server")) w).2.(calls) <> []
     /\ (api_sign_certificate Sample.tool_ok (mkSignRequest "x.csr.pem" "server") w).2.(calls) = [].
Proof.
  split; [exact api_sign_certificate_500|]. split; [exact api_revoke_certificate_500|].
  split; [exact api_list_certificates_500|]. vm_compute. split; [discriminate|reflexivity].
Qed.

End RestApi.
Module Listing.
Import MonadFacts.

Lemma list_line_short (line : string) (w : world) :
  List.length (index_fields line) <= 6 ->
  list_line line w
  = (Ok tt, set_stdout w (w.(stdout) ++ map row_line (rows_of [line]))).
Proof.
  unfold list_line, rows_of. cbn [omap list_omap].
  destruct (index_fields line) as [|a [|b [|c [|d [|e [|f [|g rest]]]]]]];
    cbn [List.length]; intros Hlen; try lia; cbn; rewrite ?app_nil_r;
    [destruct w; reflexivity ..|reflexivity].
Qed.

Lemma for_each_list_line (lines : list string) (w : world) :
  Forall (fun line => List.length (index_fields line) <= 6) lines ->
  for_each lines list_line w
  = (Ok tt, set_stdout w (w.(stdout) ++ map row_line (rows_of lines))).
Proof.
  revert w. induction lines as [|line lines IH]; intros w Hall.
  - cbn. rewrite app_nil_r. by destruct w.
  - apply Forall_cons in Hall as [Hl Hall]. cbn [for_each].
    rewrite (seq_ok _ _ _ _ _ (list_line_short line w Hl)), IH by done.
    cbn [stdout set_stdout]. rewrite <- app_assoc. 
    unfold rows_of. cbn [omap list_omap]. destruct (parse_row (index_fields line)); done.
Qed.

Lemma collect_rows_short (lines : list string) (w : world) :
  Forall (fun line => List.length (index_fields line) <= 6) lines ->
  collect_rows lines w = (Ok (map row_json (rows_of lines)), w).
Proof.
  induction lines as [|line lines IH]; intros Hall; [done|].
  apply Forall_cons in Hall as [Hl Hall]. cbn [collect_rows].
  unfold rows_of. cbn [omap list_omap]. fold (rows_of lines).
  destruct (index_fields line) as [|a [|b [|c [|d [|e [|f [|g rest]]]]]]];
    cbn [List.length] in Hl |- *; try lia; cbn -[collect_rows rows_of]; try exact (IH Hall).
  unfold bindM, mbind, M_bind, mret, M_ret. cbv beta iota. by rewrite (IH Hall).
Qed.

Lemma is_file_some (w : world) (p : path) (c : string) :
  w.(files) !! p = Some c -> is_file w p = true.
Proof. intros H. unfold is_file. rewrite H. reflexivity. Qed.

Lemma list_line_long (line : string) (w : world) :
  6 < List.length (index_fields line) ->
  list_line line w = (Exc (ValueError "too many values to unpack (expected 6)"), w).
Proof.
  unfold list_line.
  destruct (index_fields line) as [|a [|b [|c [|d [|e [|f [|g rest]]]]]]];
    cbn [List.length]; intros Hlen; try lia; reflexivity.
Qed.

Lemma for_each_list_line_app (pre rest : list string) (w : world) :
  Forall (fun line => List.length (index_fields line) <= 6) pre ->
  for_each (pre ++ rest) list_line w
  = for_each rest list_line (set_stdout w (w.(stdout) ++ map row_line (rows_of pre))).
Proof.
  revert w. induction pre as [|line pre IH]; intros w Hall.
  - cbn. rewrite app_nil_r. by destruct w.
  - apply Forall_cons in Hall as [Hl Hall]. cbn [app for_each].
    rewrite (seq_ok _ _ _ _ _ (list_line_short line w Hl)), IH by done.
    cbn [stdout set_stdout]. rewrite <- app_assoc.
    unfold rows_of. cbn [omap list_omap]. destruct (parse_row (index_fields line)); done.
Qed.

(** The CLI listing of an index that exists and decodes runs the loop
    over its lines. *)
Lemma list_certificates_lines (w : world) (content : string) :
  w.(files) !! INDEX_FILE = Some content ->
  utf8_decodes content = true ->
  list_certificates w
  = for_each (file_lines (translate_newlines content)) list_line
      (set_stdout w (w.(stdout) ++ ["📜 Issued Certificates"])).
Proof.
  intros Hf Hu. pose proof (is_file_some _ _ _ Hf) as Hfile.
  unfold list_certificates. rewrite (seq_ok _ _ _ _ _ (print_eq _ _)).
  erewrite (bind_ok _ _ _ _ true).
  2:{ unfold path_exists, gets. change (CA_DIR // "intermediate" // "index.txt") with INDEX_FILE.
      rewrite (proj2 (exists_set_stdout _ _ _)), Hfile, orb_true_r. reflexivity. }
  cbn [negb]. erewrite (bind_ok _ _ _ _ (translate_newlines content)); [reflexivity|].
  unfold read_text. change (CA_DIR // "intermediate" // "index.txt") with INDEX_FILE.
  cbn [files set_stdout]. rewrite Hf, Hu. reflexivity.
Qed.

(** C5: the CLI listing unpacks every line of six or more fields into
    exactly six names: the first line of seven or more tab-separated
    fields (after stripping) raises [ValueError], after the lines before
    it were skipped (fewer than six fields) or printed with status,
    serial, subject and expiry date.  The list endpoint answers 500 for
    every index, since [cert_mgr.CA_DIR] does not exist (see C7). *)
Theorem listing_long_line_raises (w : world) (content : string)
    (pre : list string) (bad : string) (post : list string) :
  w.(files) !! INDEX_FILE = Some content ->
  utf8_decodes content = true ->
  file_lines (translate_newlines content) = pre ++ bad :: post ->
  Forall (fun line => List.length (index_fields line) <= 6) pre ->
  6 < List.length (index_fields bad) ->
  list_certificates w
  = (Exc (ValueError "too many values to unpack (expected 6)"),
     set_stdout w (w.(stdout) ++ "📜 Issued Certificates" :: map row_line (rows_of pre)))
  /\ api_list_certificates w = (Exc (HTTPException 500 (no_attr "CA_DIR")), w).
Proof.
  intros Hf Hu Hl Hpre Hbad. split; [|reflexivity].
  rewrite (list_certificates_lines w content Hf Hu), Hl, for_each_list_line_app by exact Hpre.
  cbn [for_each]. unfold mbind at 1, M_bind at 1. rewrite list_line_long by exact Hbad.
  cbn [stdout set_stdout]. by rewrite <- app_assoc.
Qed.

Lemma listing_long_line_raises_witness :
  let line6 := Sample.index_line ["V"; "271231235959Z"; ""; "1000"; "unknown"; "/CN=a"] in
  let line7 := Sample.index_line ["V"; "271231235959Z"; ""; "1001"; "unknown"; "/CN=b"; "x"] in
  let content := line6 +:+ line7 in
  let w := Sample.world_with {[INDEX_FILE := content]} [] in
  w.(files) !! INDEX_FILE = Some content
  /\ utf8_decodes content = true
  /\ file_lines (translate_newlines content) = [line6] ++ line7 :: []
  /\ Forall (fun line => List.length (index_fields line) <= 6) [line6]
  /\ 6 < List.length (index_fields line7)
  /\ (list_certificates w).2.(stdout)
     = ["📜 Issued Certificates"; "✓ 1000: /CN=a (expires: 271231235959Z)"].
Proof.
  intros line6 line7 content w.
  assert (Hf : w.(files) !! INDEX_FILE = Some content) by reflexivity.
  assert (Hu : utf8_decodes content = true) by (vm_compute; reflexivity).
  assert (Hl : file_lines (translate_newlines content) = [line6] ++ line7 :: [])
    by (vm_compute; reflexivity).
  assert (Hpre : Forall (fun line => List.length (index_fields line) <= 6) [line6])
    by (vm_compute; repeat constructor).
  assert (Hbad : 6 < List.length (index_fields line7)) by (vm_compute; lia).
  do 5 (split; [assumption|]).
  rewrite (proj1 (listing_long_line_raises w content [line6] line7 [] Hf Hu Hl Hpre Hbad)).
  vm_compute. reflexivity.
Defined.

End Listing.

(* ===================================================================== *)
(** * Shape of the REST responses *)
(* ===================================================================== *)

Module Envelope.















End Envelope.

(* ===================================================================== *)
(** * The CA state files of [init] *)
(* ===================================================================== *)

Module CaState.

Lemma bind_path_exists {B} (q : path) (k : bool -> M B) w :
  bindM (path_exists q) k w = k (is_dir w q || is_file w q) w.
Proof. reflexivity. Qed.

Lemma preserves_mbind {A B} (I : world -> Prop) (m : M A) (k : A -> M B) :
  preserves I m -> (forall x, preserves I (k x)) -> preserves I (mbind k m).
Proof.
  intros Hm Hk w Hw. pose proof (Hm w Hw) as H1. unfold mbind, M_bind.
  destruct (m w) as [[x|e] w1]; [by apply Hk|exact H1].
Qed.

Lemma preserves_bindM {A B} (I : world -> Prop) (m : M A) (k : A -> M B) :
  preserves I m -> (forall x, preserves I (k x)) -> preserves I (bindM m k).
Proof. apply preserves_mbind. Qed.

Lemma preserves_ret {A} (I : world -> Prop) (a : A) : preserves I (mret a).
Proof. by intros w. Qed.

Lemma ok_of_preserves {A} (I : world -> Prop) (m : M A) :
  preserves I m -> on_success I m I.
Proof. intros H w a w' Hw E. pose proof (H w Hw) as H'. by rewrite E in H'. Qed.

Lemma ok_mbind {A B} (P R Q : world -> Prop) (m : M A) (k : A -> M B) :
  on_success P m R -> (forall x, on_success R (k x) Q) -> on_success P (mbind k m) Q.
Proof.
  intros Hm Hk w b w' Hw E. unfold mbind, M_bind in E.
  destruct (m w) as [[x|e] w1] eqn:Em; [|discriminate].
  eapply Hk; [eapply Hm; eauto|exact E].
Qed.

Lemma ok_chain {A B} (P Q : world -> Prop) (m : M A) (k : A -> M B) :
  preserves P m -> (forall x, on_success P (k x) Q) -> on_success P (mbind k m) Q.
Proof. intros Hm. apply ok_mbind, ok_of_preserves, Hm. Qed.

(** ** Steps that leave files and directories alone *)

Lemma fd_print (s : string) : fd_same (print s).
Proof. done. Qed.
Lemma fd_gets {A} (f : world -> A) : fd_same (gets f).
Proof. done. Qed.
Lemma fd_ret {A} (a : A) : fd_same (mret a).
Proof. done. Qed.
Lemma fd_cfg_get (k : string) : fd_same (cfg_get k).
Proof. intros w. unfold cfg_get. by repeat case_match. Qed.
Lemma fd_cfg_set (k : string) (v : json) : fd_same (cfg_set k v).
Proof. intros w. unfold cfg_set. by repeat case_match. Qed.
Lemma fd_chmod (q : path) (mode : Z) : fd_same (chmod q mode).
Proof. intros w. unfold chmod. by repeat case_match. Qed.
Lemma fd_read_text (q : path) : fd_same (read_text q).
Proof. intros w. unfold read_text. by repeat case_match. Qed.

Lemma fd_mbind {A B} (m : M A) (k : A -> M B) :
  fd_same m -> (forall x, fd_same (k x)) -> fd_same (mbind k m).
Proof.
  intros Hm Hk w. unfold mbind, M_bind. destruct (Hm w) as [E1 E2].
  destruct (m w) as [[x|e] w1]; cbn in *; [|done].
  destruct (Hk x w1) as [-> ->]. done.
Qed.

Lemma fd_input (s : string) : fd_same (input s).
Proof.
  unfold input. apply fd_mbind; [apply fd_print|intros _].
  intros w. unfold read_line. by repeat case_match.
Qed.

Lemma fd_ask (k label : string) : fd_same (ask k label).
Proof.
  unfold ask, bindM. apply fd_mbind; [apply fd_cfg_get|intros cur].
  apply fd_mbind; [apply fd_input|intros answer].
  apply fd_mbind; [apply fd_cfg_get|intros cur']. apply fd_cfg_set.
Qed.

(** ** Steps confined to shallow paths *)

Lemma gb_fd {A} n (m : M A) : fd_same m -> grows_below n m.
Proof. intros H w. destruct (H w) as [-> ->]. split; auto. Qed.

Lemma gb_mono {A} n n' (m : M A) : n <= n' -> grows_below n m -> grows_below n' m.
Proof.
  intros Hle H w. destruct (H w) as [H1 H2]. split.
  - intros q Hq. apply H1. lia.
  - intros d Hd. destruct (H2 d Hd); [left|right; lia]; done.
Qed.

Lemma gb_mbind {A B} n (m : M A) (k : A -> M B) :
  grows_below n m -> (forall x, grows_below n (k x)) -> grows_below n (mbind k m).
Proof.
  intros Hm Hk w. unfold mbind, M_bind. destruct (Hm w) as [F1 D1].
  destruct (m w) as [[x|e] w1]; cbn in *; [|split; auto].
  destruct (Hk x w1) as [F2 D2]. split.
  - intros q Hq. rewrite F2 by done. auto.
  - intros d Hd. destruct (D2 d Hd) as [H|H]; auto.
Qed.

Lemma gb_mkdir (q : path) : grows_below (List.length q) (mkdir q).
Proof.
  intros w. unfold mkdir. repeat case_match; cbn; split; auto.
  intros d Hd. apply elem_of_union in Hd as [Hd|Hd]; [|by left].
  apply elem_of_singleton in Hd as ->. right; lia.
Qed.

Lemma removelast_length_le {A} (l : list A) : List.length (removelast l) <= List.length l.
Proof. induction l as [|a l IH]; [done|]. destruct l; cbn in *; lia. Qed.

Lemma gb_mkdir_parents_n n (q : path) : grows_below (List.length q) (mkdir_parents_n n q).
Proof.
  revert q. induction n as [|n IH]; intros q; [apply gb_mkdir|].
  intros w. cbn [mkdir_parents_n].
  destruct (is_dir w q || is_file w q || is_dir w (parent q)).
  - exact (gb_mkdir q w).
  - refine (gb_mbind _ _ _ _ (fun _ => gb_mkdir q) w).
    exact (gb_mono _ _ _ (removelast_length_le q) (IH (parent q))).
Qed.

Lemma gb_write n (q : path) (s : string) : List.length q <= n -> grows_below n (write_text q s).
Proof.
  intros Hq w. unfold write_text. repeat case_match; cbn; split; auto.
  intros q' Hq'. apply lookup_insert_ne. intros ->. lia.
Qed.

Lemma gb_pres_abs {A} n (m : M A) p c :
  grows_below n m -> n < List.length p -> preserves (absent_or p c) m.
Proof.
  intros H Hn w Hw. destruct (H w) as [F D].
  unfold absent_or, has_content, fresh in *. rewrite F by done.
  destruct Hw as [Hw|[Hw Hd]]; [by left|right; split; [done|]].
  intros Hd'. destruct (D p Hd'); [done|lia].
Qed.

Lemma gb_pres_has {A} n (m : M A) p c :
  grows_below n m -> n < List.length p -> preserves (has_content p c) m.
Proof.
  intros H Hn w Hw. destruct (H w) as [F D]. unfold has_content in *. by rewrite F.
Qed.

Ltac len := apply Nat.leb_le; vm_compute; reflexivity.

Ltac gb := repeat match goal with
  | |- grows_below _ (mbind _ _) => apply gb_mbind; [|intros ?]
  | |- grows_below _ (bindM _ _) => apply gb_mbind; [|intros ?]
  | |- grows_below _ (if ?b then _ else _) => destruct b
  | |- grows_below _ (for_each _ _) => cbn [for_each]
  | |- grows_below _ (mkdir_parents ?q) =>
      apply (gb_mono (List.length q)); [len|apply gb_mkdir_parents_n]
  | |- grows_below _ (mkdir ?q) => apply (gb_mono (List.length q)); [len|apply gb_mkdir]
  | |- grows_below _ (write_text _ _) => apply gb_write; len
  | |- grows_below _ (_render_template _ _ _) => unfold _render_template; cbv zeta
  | |- grows_below _ (_save_config _) => unfold _save_config
  | |- grows_below _ _ =>
      apply gb_fd; first [ apply fd_print | apply fd_gets | apply fd_ret | apply fd_cfg_get
                         | apply fd_cfg_set | apply fd_chmod | apply fd_read_text | apply fd_ask ]
  end.

(** ** Steps near a given path *)

Section Frame.
Variable p : path.
Variable c : string.

Lemma preserves_fd {A} (m : M A) :
  fd_same m -> preserves (has_content p c) m /\ preserves (absent_or p c) m.
Proof.
  intros H. split; intros w Hw; unfold absent_or, fresh, has_content in *;
    destruct (H w) as [E1 E2]; rewrite ?E1, ?E2; exact Hw.
Qed.

Lemma is_file_has w : has_content p c w -> is_file w p = true.
Proof. intros H. unfold is_file. apply bool_decide_eq_true. rewrite H. eauto. Qed.

Lemma pres_mkdir_has q : preserves (has_content p c) (mkdir q).
Proof. intros w Hw. unfold mkdir. by repeat case_match. Qed.

Lemma pres_mkdir_abs q : q ≠ p -> preserves (absent_or p c) (mkdir q).
Proof.
  intros Hq w Hw. unfold mkdir. repeat case_match; try exact Hw.
  destruct Hw as [Hw|[Hw Hd]]; [by left|right; split; [exact Hw|cbn]].
  rewrite elem_of_union, elem_of_singleton. intros [Heq|Hin]; [by apply Hq|done].
Qed.

Lemma pres_touch_has q : preserves (has_content p c) (touch q).
Proof.
  intros w Hw. unfold touch. destruct (decide (q = p)) as [->|Hne].
  - by rewrite (is_file_has w Hw).
  - repeat case_match; try exact Hw. unfold has_content; cbn.
    by rewrite lookup_insert_ne.
Qed.

Lemma pres_touch_abs q : q ≠ p -> preserves (absent_or p c) (touch q).
Proof.
  intros Hq w Hw. unfold touch. repeat case_match; try exact Hw.
  unfold absent_or, has_content, fresh in *; cbn. by rewrite lookup_insert_ne.
Qed.

Lemma pres_write_has q s : q ≠ p -> preserves (has_content p c) (write_text q s).
Proof.
  intros Hq w Hw. unfold write_text. repeat case_match; try exact Hw.
  unfold has_content in *; cbn. by rewrite lookup_insert_ne.
Qed.

Lemma pres_write_abs q s : q ≠ p -> preserves (absent_or p c) (write_text q s).
Proof.
  intros Hq w Hw. unfold write_text. repeat case_match; try exact Hw.
  unfold absent_or, has_content, fresh in *; cbn. by rewrite lookup_insert_ne.
Qed.

(** [if not q.exists(): act] keeps an existing [p], whatever [q] is. *)
Lemma pres_guard_has {B} q (act : M unit) (rest : M B) :
  (q ≠ p -> preserves (has_content p c) act) -> preserves (has_content p c) rest ->
  preserves (has_content p c)
    (bindM (path_exists q) (fun e => (if e then mret tt else act) ;; rest)).
Proof.
  intros Ha Hr w Hw. rewrite bind_path_exists.
  destruct (decide (q = p)) as [->|Hne].
  - rewrite (is_file_has w Hw), orb_true_r.
    eapply (preserves_mbind (has_content p c)); [apply preserves_ret|intros; apply Hr|exact Hw].
  - destruct (is_dir w q || is_file w q);
      eapply (preserves_mbind (has_content p c));
      [apply preserves_ret|intros; apply Hr|exact Hw|apply Ha, Hne|intros; apply Hr|exact Hw].
Qed.

Lemma pres_guard_has_last q (act : M unit) :
  (q ≠ p -> preserves (has_content p c) act) ->
  preserves (has_content p c) (bindM (path_exists q) (fun e => if e then mret tt else act)).
Proof.
  intros Ha w Hw. rewrite bind_path_exists.
  destruct (decide (q = p)) as [->|Hne].
  - by rewrite (is_file_has w Hw), orb_true_r.
  - destruct (is_dir w q || is_file w q); [exact Hw|by apply Ha].
Qed.

Lemma not_exists_fresh w : p ≠ [] -> fresh p w -> is_dir w p || is_file w p = false.
Proof.
  intros Hp [Hn Hd]. unfold is_dir, is_file. rewrite Hn.
  rewrite !bool_decide_false; [done| |done|done]. intros [x Hx]. discriminate.
Qed.

(** [if not p.exists(): act] establishes [p] when [act] does. *)
Lemma ok_guard_establish {B} (act : M unit) (rest : M B) :
  p ≠ [] -> on_success (fresh p) act (has_content p c) ->
  preserves (has_content p c) rest ->
  on_success (absent_or p c)
    (bindM (path_exists p) (fun e => (if e then mret tt else act) ;; rest))
    (has_content p c).
Proof.
  intros Hp Ha Hr w a w' Hw E. rewrite bind_path_exists in E.
  destruct Hw as [Hw|Hf].
  - rewrite (is_file_has w Hw), orb_true_r in E.
    eapply (ok_mbind (has_content p c) (has_content p c));
      [apply ok_of_preserves, preserves_ret|intros; apply ok_of_preserves, Hr|exact Hw|exact E].
  - rewrite (not_exists_fresh w Hp Hf) in E.
    eapply (ok_mbind (fresh p) (has_content p c));
      [exact Ha|intros; apply ok_of_preserves, Hr|exact Hf|exact E].
Qed.

Lemma ok_guard_establish_last (act : M unit) :
  p ≠ [] -> on_success (fresh p) act (has_content p c) ->
  on_success (absent_or p c)
    (bindM (path_exists p) (fun e => if e then mret tt else act)) (has_content p c).
Proof.
  intros Hp Ha w a w' Hw E. rewrite bind_path_exists in E.
  destruct Hw as [Hw|Hf].
  - rewrite (is_file_has w Hw), orb_true_r in E. by inversion E; subst.
  - rewrite (not_exists_fresh w Hp Hf) in E. exact (Ha w a w' Hf E).
Qed.

Lemma ok_write_fresh : on_success (fresh p) (write_text p c) (has_content p c).
Proof.
  intros w a w' Hw E. unfold write_text in E.
  repeat case_match; inversion E; subst. apply lookup_insert_eq.
Qed.

End Frame.

Lemma ok_touch_fresh p : p ≠ [] -> on_success (fresh p) (touch p) (has_content p EmptyString).
Proof.
  intros Hp w a w' Hw E. unfold touch in E.
  rewrite orb_comm, (not_exists_fresh p w Hp Hw) in E.
  repeat case_match; inversion E; subst. apply lookup_insert_eq.
Qed.

(** ** One CA directory *)

Ltac pres_has := repeat match goal with
  | |- preserves _ (bindM (path_exists _) _) =>
      first [apply pres_guard_has; [intros ?|] | apply pres_guard_has_last; intros ?]
  | |- preserves _ (mbind _ _) => apply preserves_mbind; [|intros ?]
  | |- preserves _ (bindM _ _) => apply preserves_bindM; [|intros ?]
  | |- preserves _ (mkdir _) => apply pres_mkdir_has
  | |- preserves _ (touch _) => apply pres_touch_has
  | |- preserves _ (write_text _ _) => apply pres_write_has; assumption
  | |- preserves _ (chmod _ _) => apply preserves_fd, fd_chmod
  | |- preserves _ (mret _) => apply preserves_ret
  end.

Lemma init_ca_dir_has d p c : preserves (has_content p c) (init_ca_dir d).
Proof. unfold init_ca_dir. cbv zeta. pres_has. Qed.

Ltac pres_abs Hn := repeat match goal with
  | |- preserves _ (mbind _ _) => apply preserves_mbind; [|intros ?]
  | |- preserves _ (bindM _ _) => apply preserves_bindM; [|intros ?]
  | |- preserves _ (if ?b then _ else _) => destruct b
  | |- preserves _ (path_exists _) => apply preserves_fd, fd_gets
  | |- preserves _ (mkdir _) => apply pres_mkdir_abs, Hn; cbn; tauto
  | |- preserves _ (touch _) => apply pres_touch_abs, Hn; cbn; tauto
  | |- preserves _ (write_text _ _) => apply pres_write_abs, Hn; cbn; tauto
  | |- preserves _ (chmod _ _) => apply preserves_fd, fd_chmod
  | |- preserves _ (mret _) => apply preserves_ret
  end.

Lemma init_ca_dir_abs d p c :
  (forall s, In s ["certs"; "crl"; "newcerts"; "private"; "index.txt"; "serial"; "crlnumber"] ->
             d // s ≠ p) -> preserves (absent_or p c) (init_ca_dir d).
Proof. intros Hn. unfold init_ca_dir. cbv zeta. pres_abs Hn. Qed.

Lemma join_neq (d : path) (s s' : string) : s ≠ s' -> d // s ≠ d // s'.
Proof. unfold join_path. intros Hs H. apply app_inv_head in H. congruence. Qed.

Lemma join_not_nil (d : path) (s : string) : d // s ≠ [].
Proof. unfold join_path. intros H. apply app_eq_nil in H as [_ H]. discriminate. Qed.

Ltac abs_step := first
  [ apply preserves_ret | apply preserves_fd, fd_gets | apply preserves_fd, fd_chmod
  | apply pres_mkdir_abs, join_neq; discriminate
  | apply pres_touch_abs, join_neq; discriminate
  | apply pres_write_abs, join_neq; discriminate ].

Ltac dir_walk := repeat match goal with
  | |- on_success _ (bindM (path_exists _) _) _ =>
      first [ apply ok_guard_establish;
                [apply join_not_nil|first [apply ok_touch_fresh, join_not_nil | apply ok_write_fresh]
                |pres_has]
            | apply ok_guard_establish_last;
                [apply join_not_nil|first [apply ok_touch_fresh, join_not_nil | apply ok_write_fresh]]
            | apply ok_chain; [abs_step|intros ?] ]
  | |- on_success _ (mbind _ (if ?b then _ else _)) _ =>
      apply ok_chain; [destruct b; abs_step|intros ?]
  | |- on_success _ (mbind _ _) _ => apply ok_chain; [abs_step|intros ?]
  end.

(** Each CA directory gets its index, serial and CRL counter when they
    are missing. *)
Lemma init_ca_dir_establish d s c :
  In (s, c) [("index.txt", EmptyString); ("serial", "1000" +:+ nl); ("crlnumber", "1000" +:+ nl)] ->
  on_success (absent_or (d // s) c) (init_ca_dir d) (has_content (d // s) c).
Proof.
  intros Hin. unfold init_ca_dir. cbv zeta.
  destruct Hin as [Hin|[Hin|[Hin|[]]]]; inversion Hin; subst; dir_walk.
Qed.

Ltac len_lt := apply Nat.ltb_lt; vm_compute; reflexivity.

Lemma ca_state_shape p v :
  In (p, v) ca_state_files ->
  exists d s, p = d // s /\ (d = ROOT_CA_DIR \/ d = INTER_CA_DIR) /\
    In (s, v) [("index.txt", EmptyString); ("serial", "1000" +:+ nl); ("crlnumber", "1000" +:+ nl)].
Proof.
  unfold ca_state_files. intros Hin.
  repeat (destruct Hin as [Hin|Hin]; [inversion Hin; subst; eexists _, _;
    split; [reflexivity|split; [tauto|cbn; tauto]]|]); contradiction.
Qed.

Lemma ca_state_depth p v : In (p, v) ca_state_files -> 4 < List.length p.
Proof.
  intros Hin. destruct (ca_state_shape p v Hin) as (d & s & -> & [-> | ->] & _); len_lt.
Qed.

Lemma init_keeps json_dumps interactive p c :
  4 < List.length p -> preserves (has_content p c) (init json_dumps interactive).
Proof.
  intros Hp. unfold init. cbv zeta.
  repeat match goal with
  | |- preserves _ (mbind _ (for_each _ init_ca_dir)) =>
      apply preserves_mbind; [cbn [for_each];
        repeat (apply preserves_mbind; [apply init_ca_dir_has|intros ?]);
        apply preserves_ret|intros ?]
  | |- preserves _ (mbind _ _) => apply preserves_mbind; [apply (gb_pres_has 4); [gb|exact Hp]|intros ?]
  | |- preserves _ (bindM _ _) => apply preserves_bindM; [apply (gb_pres_has 4); [gb|exact Hp]|intros ?]
  | |- preserves _ _ => apply (gb_pres_has 4); [gb|exact Hp]
  end.
Qed.

Lemma other_dir_neq (d d' : path) (s : string) :
  d = ROOT_CA_DIR \/ d = INTER_CA_DIR -> d' = ROOT_CA_DIR \/ d' = INTER_CA_DIR -> d ≠ d' ->
  forall s', d' // s' ≠ d // s.
Proof.
  intros [-> | ->] [-> | ->] Hne s' H; try congruence;
    unfold join_path in H; apply app_inj_tail in H as [H _]; vm_compute in H; discriminate.
Qed.

Lemma init_establishes json_dumps interactive p v :
  In (p, v) ca_state_files ->
  on_success (absent_or p v) (init json_dumps interactive) (has_content p v).
Proof.
  intros Hin. pose proof (ca_state_depth p v Hin) as Hp.
  destruct (ca_state_shape p v Hin) as (d & s & -> & Hd & Hs).
  unfold init. cbv zeta.
  repeat match goal with
  | |- on_success _ (mbind _ (for_each _ init_ca_dir)) _ => fail 1
  | |- on_success _ (mbind _ _) _ => apply ok_chain; [apply (gb_pres_abs 4); [gb|exact Hp]|intros ?]
  | |- on_success _ (bindM _ _) _ => apply ok_chain; [apply (gb_pres_abs 4); [gb|exact Hp]|intros ?]
  end.
  apply (ok_mbind _ (has_content (d // s) v)); [cbn [for_each]|intros ?].
  2:{ apply ok_of_preserves. apply preserves_mbind; [|intros ?];
      apply (gb_pres_has 4); [gb|exact Hp|gb|exact Hp]. }
  destruct Hd as [-> | ->].
  - apply (ok_mbind _ (has_content (ROOT_CA_DIR // s) v));
      [apply init_ca_dir_establish, Hs|intros ?].
    apply ok_of_preserves, preserves_mbind; [apply init_ca_dir_has|intros ?; apply preserves_ret].
  - apply ok_chain.
    + apply init_ca_dir_abs. intros s' _.
      apply (other_dir_neq INTER_CA_DIR ROOT_CA_DIR); [tauto|tauto|vm_compute; congruence].
    + intros ?. apply (ok_mbind _ (has_content (INTER_CA_DIR // s) v));
        [apply init_ca_dir_establish, Hs|intros ?; apply ok_of_preserves, preserves_ret].
Qed.

(** C6: for each of the six CA state files of [init] (the index, the
    serial counter "1000" and the CRL counter "1000" of the root and of the
    intermediate CA directory): a file that exists keeps its content
    through [init], whether [init] succeeds or raises; a run of [init]
    that succeeds leaves the file with its initial content when nothing
    existed at its path before; so a second run of [init] after a
    successful one leaves the file as the first run made it. *)
Theorem init_ca_state (json_dumps : json -> string) (interactive : bool) (w : world)
    (p : path) (v : string) :
  In (p, v) ca_state_files ->
  (forall c, w.(files) !! p = Some c ->
             (init json_dumps interactive w).2.(files) !! p = Some c) /\
  (w.(files) !! p = None -> p ∉ w.(dirs) ->
   forall w', init json_dumps interactive w = (Ok tt, w') ->
   w'.(files) !! p = Some v /\
   (forall interactive', (init json_dumps interactive' w').2.(files) !! p = Some v)).
Proof.
  intros Hin. pose proof (ca_state_depth p v Hin) as Hp. split.
  - intros c Hc. exact (init_keeps json_dumps interactive p c Hp w Hc).
  - intros Hn Hd w' E.
    assert (H' : has_content p v w')
      by exact (init_establishes json_dumps interactive p v Hin w tt w'
                  (or_intror (conj Hn Hd)) E).
    split; [exact H'|].
    intros interactive'. exact (init_keeps json_dumps interactive' p v Hp w' H').
Qed.

Lemma init_ca_state_witness :
  let w := Sample.world_with Sample.templates [] in
  In (ROOT_CA_DIR // "serial", "1000" +:+ nl) ca_state_files /\
  (init Sample.dumps false w).1 = Ok tt /\
  ((forall c, w.(files) !! (ROOT_CA_DIR // "serial") = Some c ->
     (init Sample.dumps false w).2.(files) !! (ROOT_CA_DIR // "serial") = Some c) /\
   (w.(files) !! (ROOT_CA_DIR // "serial") = None -> ROOT_CA_DIR // "serial" ∉ w.(dirs) ->
    forall w', init Sample.dumps false w = (Ok tt, w') ->
    w'.(files) !! (ROOT_CA_DIR // "serial") = Some ("1000" +:+ nl) /\
    (forall interactive', (init Sample.dumps interactive' w').2.(files)
                            !! (ROOT_CA_DIR // "serial") = Some ("1000" +:+ nl)))).
Proof.
  intros w. assert (Hin : In (ROOT_CA_DIR // "serial", "1000" +:+ nl) ca_state_files)
    by (simpl; tauto).
  split; [exact Hin|split; [vm_compute; reflexivity|]].
  exact (init_ca_state Sample.dumps false w _ _ Hin).
Defined.

End CaState.

(* ===================================================================== *)
(** * Further properties of the two programs *)
(* ===================================================================== *)

Module Effects.

Lemma ok_inv {A B} (m : M A) (k : A -> M B) (w w' : world) (b : B) :
  mbind k m w = (Ok b, w') -> exists a w1, m w = (Ok a, w1) /\ k a w1 = (Ok b, w').
Proof.
  unfold mbind, M_bind. destruct (m w) as [[a|e] w1]; [|discriminate]. eauto.
Qed.

Lemma try_ok_inv {A} (m : M A) (h : exn -> M A) (w w' : world) (a : A) :
  try_except m h w = (Ok a, w') ->
  m w = (Ok a, w') \/ exists e w1, m w = (Exc e, w1) /\ h e w1 = (Ok a, w').
Proof. unfold try_except. destruct (m w) as [[x|e] w1]; [left; congruence|right; eauto]. Qed.

(** ** Output only *)

Lemma set_stdout_twice (w : world) (a b : list string) :
  set_stdout (set_stdout w a) b = set_stdout w b.
Proof. reflexivity. Qed.

Lemma set_stdout_same (w : world) : set_stdout w (w.(stdout) ++ []) = w.
Proof. rewrite app_nil_r. by destruct w. Qed.

Lemma op_unchanged {A} (m : M A) : (forall w, (m w).2 = w) -> only_prints m.
Proof. intros H w. exists []. by rewrite H, set_stdout_same. Qed.

Lemma op_ret {A} (a : A) : only_prints (mret a).
Proof. by apply op_unchanged. Qed.
Lemma op_raise {A} (e : exn) : only_prints (raise (A:=A) e).
Proof. by apply op_unchanged. Qed.
Lemma op_gets {A} (f : world -> A) : only_prints (gets f).
Proof. by apply op_unchanged. Qed.
Lemma op_print (s : string) : only_prints (print s).
Proof. intros w. by exists [s]. Qed.
Lemma op_read_text (p : path) : only_prints (read_text p).
Proof. apply op_unchanged. intros w. unfold read_text. by repeat case_match. Qed.

Lemma op_mbind {A B} (m : M A) (k : A -> M B) :
  only_prints m -> (forall x, only_prints (k x)) -> only_prints (mbind k m).
Proof.
  intros Hm Hk w. destruct (Hm w) as [o1 H1]. unfold mbind, M_bind.
  destruct (m w) as [[x|e] w1]; cbn in H1 |- *; [|by exists o1].
  destruct (Hk x w1) as [o2 H2]. exists (o1 ++ o2).
  rewrite H2, H1. cbn. by rewrite app_assoc.
Qed.

Lemma op_for_each {A} (xs : list A) (body : A -> M unit) :
  (forall x, only_prints (body x)) -> only_prints (for_each xs body).
Proof.
  intros Hb. induction xs as [|x xs IH]; cbn [for_each];
    [apply op_ret|apply op_mbind; [apply Hb|intros _; exact IH]].
Qed.

Ltac op_go := repeat match goal with
  | |- only_prints (mbind _ _) => apply op_mbind; [|intros ?]
  | |- only_prints (bindM _ _) => apply op_mbind; [|intros ?]
  | |- only_prints (if ?b then _ else _) => destruct b
  | |- only_prints (match ?x with _ => _ end) => destruct x
  | |- only_prints (for_each _ _) => apply op_for_each; intros ?
  | |- only_prints (mret _) => apply op_ret
  | |- only_prints (raise _) => apply op_raise
  | |- only_prints (gets _) => apply op_gets
  | |- only_prints (path_exists _) => apply op_gets
  | |- only_prints (print _) => apply op_print
  | |- only_prints (read_text _) => apply op_read_text
  | |- only_prints (unpack6 _) => unfold unpack6
  | |- only_prints (list_line _) => unfold list_line; cbv zeta
  end.

Lemma list_certificates_only_prints : only_prints list_certificates.
Proof. unfold list_certificates. cbv zeta. op_go. Qed.

End Effects.

Module ReadOnly.
Import Effects.

(** Listing the issued certificates ([list_certificates]) changes
    nothing but standard output, whatever the index file holds and
    whether or not the loop raises; without an index file it prints its
    heading and "No certificates issued yet" and returns normally. *)
Theorem list_certificates_read_only (w : world) :
  (exists out, (list_certificates w).2 = set_stdout w (w.(stdout) ++ out)) /\
  (is_dir w INDEX_FILE || is_file w INDEX_FILE = false ->
   list_certificates w
   = (Ok tt, set_stdout w (w.(stdout) ++ ["📜 Issued Certificates"; "No certificates issued yet"]))).
Proof.
  split; [apply list_certificates_only_prints|].
  intros H. unfold list_certificates. cbv zeta.
  rewrite (MonadFacts.seq_ok _ _ _ _ _ (MonadFacts.print_eq _ _)).
  unfold bindM, mbind at 1, M_bind at 1, path_exists, gets.
  change (CA_DIR // "intermediate" // "index.txt") with INDEX_FILE.
  assert (H' : forall o, is_dir (set_stdout w o) INDEX_FILE
                         || is_file (set_stdout w o) INDEX_FILE = false) by exact (fun _ => H).
  rewrite H'. cbn. rewrite MonadFacts.print_eq. cbn. by rewrite <- app_assoc.
Qed.

Lemma list_certificates_read_only_witness :
  is_dir (Sample.world_with ∅ []) INDEX_FILE || is_file (Sample.world_with ∅ []) INDEX_FILE = false /\
  list_certificates (Sample.world_with ∅ [])
  = (Ok tt, set_stdout (Sample.world_with ∅ [])
              ((Sample.world_with ∅ []).(stdout) ++ ["📜 Issued Certificates"; "No certificates issued yet"])).
Proof.
  assert (H : is_dir (Sample.world_with ∅ []) INDEX_FILE
              || is_file (Sample.world_with ∅ []) INDEX_FILE = false) by (vm_compute; reflexivity).
  split; [exact H|exact (proj2 (list_certificates_read_only _) H)].
Defined.

End ReadOnly.

Module Aborts.

(** [sign_certificate] and [revoke_certificate] given a path that does
    not exist print their heading, write the "not found" message to
    standard error and exit with status 1: no tool runs, and no file,
    directory, mode or configuration changes. *)
Theorem missing_path_exits (tool : list string -> gmap (list string) string ->
                                   proc_result * gmap (list string) string)
    (csr_file cert_type cert_file : string) (w : world) :
  is_dir w (div_str w.(cwd) csr_file) || is_file w (div_str w.(cwd) csr_file) = false ->
  is_dir w (div_str w.(cwd) cert_file) || is_file w (div_str w.(cwd) cert_file) = false ->
  sign_certificate tool csr_file cert_type w
  = (Exc (SystemExit 1),
     set_stderr (set_stdout w (w.(stdout) ++ ["✍ Signing certificate: " +:+ csr_file]))
                (w.(stderr) ++ ["✗ CSR not found: " +:+ csr_file])) /\
  revoke_certificate tool cert_file w
  = (Exc (SystemExit 1),
     set_stderr (set_stdout w (w.(stdout) ++ ["🚫 Revoking certificate: " +:+ cert_file]))
                (w.(stderr) ++ ["✗ Certificate not found: " +:+ cert_file])).
Proof.
  intros Hc Hr. split.
  - exact (RestApi.sign_certificate_missing tool csr_file cert_type w Hc).
  - exact (RestApi.revoke_certificate_missing tool cert_file w Hr).
Qed.

Lemma missing_path_exits_witness :
  let w := Sample.world_with ∅ [] in
  sign_certificate Sample.tool_ok "csr/none.csr.pem" "server" w
  = (Exc (SystemExit 1),
     set_stderr (set_stdout w (w.(stdout) ++ ["✍ Signing certificate: " +:+ "csr/none.csr.pem"]))
                (w.(stderr) ++ ["✗ CSR not found: " +:+ "csr/none.csr.pem"])) /\
  revoke_certificate Sample.tool_ok "issued_certificates/none.cert.pem" w
  = (Exc (SystemExit 1),
     set_stderr (set_stdout w (w.(stdout) ++ ["🚫 Revoking certificate: " +:+ "issued_certificates/none.cert.pem"]))
                (w.(stderr) ++ ["✗ Certificate not found: " +:+ "issued_certificates/none.cert.pem"])).
Proof.
  intros w. apply missing_path_exits; vm_compute; reflexivity.
Defined.

End Aborts.

Module CsrEndpoint.

(** POST /api/v1/csr puts [sys.stdin] back as it found it when
    [create_csr] returns and when it raises an [Exception]; only an
    exception outside [Exception] ([SystemExit], raised when a tool run
    fails) leaves the replacement in place. *)
Theorem api_create_csr_restores_stdin
    (tool : list string -> gmap (list string) string -> proc_result * gmap (list string) string)
    (req : CSRRequest) (w : world) :
  (api_create_csr tool req w).2.(stdin) = w.(stdin) \/
  exists e, (api_create_csr tool req w).1 = Exc e /\ is_Exception e = false.
Proof.
  unfold api_create_csr, bindM, mbind, M_bind, gets, try_except, modify. cbn -[create_csr].
  destruct (create_csr tool _ _ _) as [[x|e] w2]; cbn -[create_csr].
  - by left.
  - destruct (is_Exception e) eqn:He; cbn; [by left|right; by exists e].
Qed.

End CsrEndpoint.

Module ConfigFlow.
Import Effects CaState.

Lemma cs_unchanged {A} (m : M A) : (forall w, (m w).2 = w) -> cfg_same m.
Proof. intros H w. by rewrite H. Qed.
Lemma cs_ret {A} (a : A) : cfg_same (mret a).
Proof. done. Qed.
Lemma cs_gets {A} (f : world -> A) : cfg_same (gets f).
Proof. done. Qed.
Lemma cs_print (s : string) : cfg_same (print s).
Proof. done. Qed.
Lemma cs_cfg_get (k : string) : cfg_same (cfg_get k).
Proof. intros w. unfold cfg_get. by repeat case_match. Qed.
Lemma cs_mkdir (q : path) : cfg_same (mkdir q).
Proof. intros w. unfold mkdir. by repeat case_match. Qed.
Lemma cs_chmod (q : path) (mode : Z) : cfg_same (chmod q mode).
Proof. intros w. unfold chmod. by repeat case_match. Qed.
Lemma cs_touch (q : path) : cfg_same (touch q).
Proof. intros w. unfold touch. by repeat case_match. Qed.
Lemma cs_write (q : path) (s : string) : cfg_same (write_text q s).
Proof. intros w. unfold write_text. by repeat case_match. Qed.
Lemma cs_read (q : path) : cfg_same (read_text q).
Proof. intros w. unfold read_text. by repeat case_match. Qed.

Lemma cs_mbind {A B} (m : M A) (k : A -> M B) :
  cfg_same m -> (forall x, cfg_same (k x)) -> cfg_same (mbind k m).
Proof.
  intros Hm Hk w. unfold mbind, M_bind. pose proof (Hm w) as H1.
  destruct (m w) as [[x|e] w1]; cbn in *; [by rewrite Hk|done].
Qed.

Lemma cs_mkdir_parents_n n (q : path) : cfg_same (mkdir_parents_n n q).
Proof.
  revert q. induction n as [|n IH]; intros q; [apply cs_mkdir|].
  intros w. cbn [mkdir_parents_n].
  destruct (is_dir w q || is_file w q || is_dir w (parent q)).
  - exact (cs_mkdir q w).
  - exact (cs_mbind _ _ (IH (parent q)) (fun _ => cs_mkdir q) w).
Qed.

Lemma cs_for_each {A} (xs : list A) (body : A -> M unit) :
  (forall x, cfg_same (body x)) -> cfg_same (for_each xs body).
Proof.
  intros Hb. induction xs as [|x xs IH]; cbn [for_each];
    [apply cs_ret|apply cs_mbind; [apply Hb|intros _; exact IH]].
Qed.

Ltac cs_go := repeat match goal with
  | |- cfg_same (mbind _ _) => apply cs_mbind; [|intros ?]
  | |- cfg_same (bindM _ _) => apply cs_mbind; [|intros ?]
  | |- cfg_same (if ?b then _ else _) => destruct b
  | |- cfg_same (for_each _ _) => apply cs_for_each; intros ?
  | |- cfg_same (mret _) => apply cs_ret
  | |- cfg_same (gets _) => apply cs_gets
  | |- cfg_same (path_exists _) => apply cs_gets
  | |- cfg_same (print _) => apply cs_print
  | |- cfg_same (cfg_get _) => apply cs_cfg_get
  | |- cfg_same (mkdir _) => apply cs_mkdir
  | |- cfg_same (mkdir_parents _) => apply cs_mkdir_parents_n
  | |- cfg_same (chmod _ _) => apply cs_chmod
  | |- cfg_same (touch _) => apply cs_touch
  | |- cfg_same (write_text _ _) => apply cs_write
  | |- cfg_same (read_text _) => apply cs_read
  | |- cfg_same (init_ca_dir _) => unfold init_ca_dir; cbv zeta
  | |- cfg_same (_render_template _ _ _) => unfold _render_template; cbv zeta
  | |- cfg_same (_save_config _) => unfold _save_config
  end.

(** Without the prompts, [init] leaves [self.config] as it is. *)
Lemma init_config_same json_dumps : cfg_same (init json_dumps false).
Proof. unfold init. cbv zeta. cbv beta iota. cs_go. Qed.

Lemma preserves_True {A} (m : M A) : preserves (fun _ => True) m.
Proof. done. Qed.

Lemma save_establishes json_dumps :
  on_success (fun _ => True) (_save_config json_dumps) (config_saved json_dumps).
Proof.
  intros w a w' _ E. unfold _save_config, bindM, mbind, M_bind, gets, write_text in E.
  cbn in E. repeat case_match; inversion E; subst.
  unfold config_saved, CONFIG_FILE. cbn. apply lookup_insert_eq.
Qed.

Lemma pres_saved {A} json_dumps (m : M A) :
  (forall c, preserves (has_content CONFIG_FILE c) m) -> cfg_same m ->
  preserves (config_saved json_dumps) m.
Proof.
  intros Hh Hc w Hw. unfold config_saved. rewrite Hc. exact (Hh _ w Hw).
Qed.

Lemma render_keeps_config_file (t o : path) vars c :
  o ≠ CONFIG_FILE -> preserves (has_content CONFIG_FILE c) (_render_template t o vars).
Proof.
  intros Ho. unfold _render_template. cbv zeta.
  apply preserves_bindM; [apply preserves_fd, fd_read_text|intros ?].
  apply preserves_mbind; [apply pres_write_has, Ho|intros ?].
  apply preserves_fd, fd_print.
Qed.

Lemma init_saves json_dumps interactive :
  on_success (fun _ => True) (init json_dumps interactive) (config_saved json_dumps).
Proof.
  unfold init. cbv zeta.
  repeat match goal with
  | |- on_success _ (mbind _ (_save_config _)) _ => fail 1
  | |- on_success _ (mbind _ _) _ => apply ok_chain; [apply preserves_True|intros ?]
  end.
  apply (ok_mbind _ (config_saved json_dumps)); [apply save_establishes|intros ?].
  apply ok_of_preserves.
  repeat match goal with
  | |- preserves _ (mbind _ _) => apply preserves_mbind; [|intros ?]
  | |- preserves _ (bindM _ _) => apply preserves_bindM; [|intros ?]
  | |- preserves _ (for_each _ _) => cbn [for_each]
  | |- preserves _ ?m => apply pres_saved; [intros ?|cs_go]
  | |- preserves (has_content _ _) (init_ca_dir _) => apply init_ca_dir_has
  | |- preserves (has_content _ _) (_render_template _ _ _) =>
      apply render_keeps_config_file; discriminate
  | |- preserves (has_content _ _) (mret _) => apply preserves_ret
  | |- preserves (has_content _ _) ?m =>
      apply preserves_fd; first [apply fd_print | apply fd_cfg_get]
  end.
Qed.

Lemma config_set_config (w : world) (j : json) : (set_config w j).(config) = j.
Proof. reflexivity. Qed.

Lemma set_if_given_obj (k : string) (o : option string) (kvs : list (string * json)) (w : world) :
  w.(config) = JObj kvs ->
  set_if_given k o w = (Ok tt, set_config w (JObj (set_given_kvs k o kvs))).
Proof.
  intros H. unfold set_if_given, set_given_kvs.
  destruct o as [[|c s]|]; try (destruct w; cbn in H; subst; reflexivity).
Qed.

Lemma assoc_set_eq (k : string) (v : json) kvs : assoc k (assoc_set k v kvs) = Some v.
Proof.
  induction kvs as [|[k' v'] kvs IH]; cbn; [by rewrite String.eqb_refl|].
  destruct (String.eqb k k') eqn:E; cbn; [by rewrite String.eqb_refl|by rewrite E].
Qed.

Lemma assoc_set_ne (k k' : string) (v : json) kvs :
  k ≠ k' -> assoc k' (assoc_set k v kvs) = assoc k' kvs.
Proof.
  intros Hne. induction kvs as [|[k'' v''] kvs IH]; cbn.
  - apply String.eqb_neq in Hne. rewrite String.eqb_sym, Hne. done.
  - destruct (String.eqb k k'') eqn:E; cbn.
    + apply String.eqb_eq in E as ->. apply String.eqb_neq in Hne.
      by rewrite String.eqb_sym, Hne.
    + by destruct (String.eqb k' k'').
Qed.

Lemma assoc_given_eq (k : string) (o : option string) kvs :
  assoc k (set_given_kvs k o kvs)
  = match o with Some (String c s) => Some (JStr (String c s)) | _ => assoc k kvs end.
Proof. unfold set_given_kvs. destruct o as [[|c s]|]; try done. apply assoc_set_eq. Qed.

Lemma assoc_given_eq' (k : string) (o : option string) kvs kvs' :
  assoc k kvs' = assoc k kvs ->
  assoc k (set_given_kvs k o kvs')
  = match o with Some (String c s) => Some (JStr (String c s)) | _ => assoc k kvs end.
Proof. intros H. rewrite assoc_given_eq. by destruct o as [[|c s]|]. Qed.

Lemma assoc_given_ne (k k' : string) (o : option string) kvs :
  k ≠ k' -> assoc k' (set_given_kvs k o kvs) = assoc k' kvs.
Proof. intros H. unfold set_given_kvs. destruct o as [[|c s]|]; try done. by apply assoc_set_ne. Qed.

Lemma except500_not_ok {A} (e : exn) (w w' : world) (a : A) :
  except_Exception_500 e w <> (Ok a, w').
Proof. unfold except_Exception_500, raise. by destruct (is_Exception e). Qed.

End ConfigFlow.

Module ConfigExtras.
Import Effects CaState ConfigFlow.

(** After [init] succeeds, conf/certmgr_config.json holds [json.dump] of
    the manager's configuration as it stands at the end; without the
    prompts ([interactive=False]) that configuration is the one [init]
    started with. *)
Theorem init_saves_config (json_dumps : json -> string) (interactive : bool) (w w' : world) :
  init json_dumps interactive w = (Ok tt, w') ->
  w'.(files) !! CONFIG_FILE = Some (json_dumps w'.(config)) /\
  (interactive = false -> w'.(config) = w.(config)).
Proof.
  intros E. split.
  - exact (init_saves json_dumps interactive w tt w' I E).
  - intros ->. pose proof (init_config_same json_dumps w) as H. by rewrite E in H.
Qed.

Lemma init_saves_config_witness :
  let w := Sample.world_with Sample.templates [] in
  init Sample.dumps false w = (Ok tt, (init Sample.dumps false w).2) /\
  (init Sample.dumps false w).2.(files) !! CONFIG_FILE
    = Some (Sample.dumps (init Sample.dumps false w).2.(config)) /\
  (false = false -> (init Sample.dumps false w).2.(config) = w.(config)).
Proof.
  intros w. assert (E1 : (init Sample.dumps false w).1 = Ok tt) by (vm_compute; reflexivity).
  assert (E : init Sample.dumps false w = (Ok tt, (init Sample.dumps false w).2))
    by (rewrite <- E1; apply surjective_pairing).
  split; [exact E|exact (init_saves_config Sample.dumps false w _ E)].
Defined.

(** POST /api/v1/init, when it succeeds, sets each configuration key
    whose request field is a non-empty string to that string, leaves the
    keys of absent or empty fields and all other keys as they were,
    saves that configuration to conf/certmgr_config.json and returns it
    in the response. *)
Theorem api_initialize_ca_applies_request (json_dumps : json -> string) (req : InitRequest)
    (kvs0 : list (string * json)) (w w' : world) (r : response) :
  w.(config) = JObj kvs0 ->
  api_initialize_ca json_dumps req w = (Ok r, w') ->
  exists kvs,
    w'.(config) = JObj kvs /\
    r = StatusResponse true "Certificate management system initialized successfully"
          (Some (JObj [("config", JObj kvs)])) /\
    w'.(files) !! CONFIG_FILE = Some (json_dumps (JObj kvs)) /\
    (forall k o, In (k, o) (request_updates req) ->
       assoc k kvs = match o with
                     | Some (String c s) => Some (JStr (String c s))
                     | _ => assoc k kvs0
                     end) /\
    (forall k, ~ In k (map fst (request_updates req)) -> assoc k kvs = assoc k kvs0).
Proof.
  intros Hc E. unfold api_initialize_ca in E.
  apply try_ok_inv in E as [E|(e & w1 & _ & E)]; [|by apply except500_not_ok in E].
  destruct req as [o1 o2 o3 o4 o5 o6]; cbn [req_country req_state req_locality
    req_organization req_root_ca_cn req_inter_ca_cn] in E |- *.
  set (kvs := set_given_kvs "inter_ca_cn" o6 (set_given_kvs "root_ca_cn" o5
              (set_given_kvs "organization" o4 (set_given_kvs "locality" o3
              (set_given_kvs "state" o2 (set_given_kvs "country" o1 kvs0)))))).
  rewrite (MonadFacts.seq_ok _ _ _ _ _ (set_if_given_obj _ _ _ _ Hc)) in E.
  do 5 rewrite (MonadFacts.seq_ok _ _ _ _ _ (set_if_given_obj _ _ _ _ (config_set_config _ _))) in E.
  apply ok_inv in E as ([] & w2 & Ei & E).
  match type of Ei with
  | init _ _ ?w0 = _ => pose proof (init_config_same json_dumps w0) as Hcfg
  end.
  pose proof (init_saves json_dumps false _ tt w2 I Ei) as Hsaved.
  rewrite Ei in Hcfg. cbn in Hcfg.
  unfold bindM, mbind, M_bind, gets, mret, M_ret in E. cbn in E. inversion E; subst; clear E.
  exists kvs. split; [exact Hcfg|split; [by rewrite Hcfg|split]].
  - unfold config_saved in Hsaved. by rewrite Hsaved, Hcfg.
  - split.
    + intros k o Hin. cbn in Hin.
      repeat (destruct Hin as [Hin|Hin]; [inversion Hin; subst; unfold kvs;
        rewrite ?assoc_given_ne by discriminate; erewrite assoc_given_eq';
        [reflexivity|rewrite ?assoc_given_ne by discriminate; reflexivity]|]); contradiction.
    + intros k Hk. cbn in Hk. unfold kvs.
      rewrite !assoc_given_ne; [reflexivity|intros <-; apply Hk; tauto ..].
Qed.

Lemma api_initialize_ca_applies_request_witness :
  let w := Sample.world_with Sample.templates [] in
  let req := mkInitRequest (Some "DE") None (Some "") (Some "Acme") None (Some "Acme Issuing") in
  let kvs0 := match Sample.default_config with JObj l => l | _ => [] end in
  let r := StatusResponse true "Certificate management system initialized successfully"
             (Some (JObj [("config", JObj
               [("country", JStr "DE"); ("state", JStr "California");
                ("locality", JStr "San Francisco"); ("organization", JStr "Acme");
                ("root_ca_cn", JStr "Root CA host"); ("inter_ca_cn", JStr "Acme Issuing");
                ("root_ca_days", JInt 3650); ("inter_ca_days", JInt 1825);
                ("cert_days", JInt 365); ("fqdn", JStr "host")])])) in
  let w' := (api_initialize_ca Sample.dumps req w).2 in
  w.(config) = JObj kvs0 /\ api_initialize_ca Sample.dumps req w = (Ok r, w') /\
  exists kvs,
    w'.(config) = JObj kvs /\
    r = StatusResponse true "Certificate management system initialized successfully"
          (Some (JObj [("config", JObj kvs)])) /\
    w'.(files) !! CONFIG_FILE = Some (Sample.dumps (JObj kvs)) /\
    (forall k o, In (k, o) (request_updates req) ->
       assoc k kvs = match o with
                     | Some (String c s) => Some (JStr (String c s))
                     | _ => assoc k kvs0
                     end) /\
    (forall k, ~ In k (map fst (request_updates req)) -> assoc k kvs = assoc k kvs0).
Proof.
  intros w req kvs0 r w'.
  assert (Hc : w.(config) = JObj kvs0) by reflexivity.
  assert (E1 : (api_initialize_ca Sample.dumps req w).1 = Ok r) by (vm_compute; reflexivity).
  assert (E : api_initialize_ca Sample.dumps req w = (Ok r, w'))
    by (rewrite <- E1; apply surjective_pairing).
  split; [exact Hc|split; [exact E|]].
  exact (api_initialize_ca_applies_request Sample.dumps req kvs0 w w' r Hc E).
Defined.

End ConfigExtras.

(* ===================================================================== *)
(** * The saved configuration is the one loaded next *)
(* ===================================================================== *)

Module ConfigPersist.
Import Effects CaState ConfigFlow.

Lemma translate_newlines_no_cr (s : string) :
  PyStr.has_char (ascii_of_nat 13) s = false -> translate_newlines s = s.
Proof.
  induction s as [|c s IH]; cbn; [done|].
  intros [H1 H2]%orb_false_iff.
  destruct (Nat.eqb_spec (nat_of_ascii c) 13) as [E|E].
  - exfalso. apply (f_equal ascii_of_nat) in E. rewrite ascii_nat_embedding in E.
    subst c. discriminate H1.
  - by rewrite IH.
Qed.

Lemma load_saved json_dumps json_loads (w : world) :
  config_saved json_dumps w ->
  json_loads (json_dumps w.(config)) = Some w.(config) ->
  utf8_decodes (json_dumps w.(config)) = true ->
  PyStr.has_char (ascii_of_nat 13) (json_dumps w.(config)) = false ->
  _load_config json_loads w = (Ok w.(config), w).
Proof.
  unfold config_saved, CONFIG_FILE. intros Hs Hl Hu Hn.
  unfold _load_config, bindM, mbind, M_bind, path_exists, gets, is_file. cbn in Hs |- *.
  rewrite Hs, (bool_decide_eq_true_2 (is_Some _)) by by eexists.
  rewrite orb_true_r. unfold read_text. rewrite Hs, Hu, translate_newlines_no_cr by exact Hn.
  by rewrite Hl.
Qed.

(** [init] followed by a later [CertificateManager()] ([_load_config]):
    when [json.load] reads back what [json.dump] wrote (text that is
    UTF-8, as the ASCII of [json.dump] is, with no carriage return), the
    configuration the next run loads is the one [init] ended with, and
    loading changes nothing. *)
Theorem init_then_load (json_dumps : json -> string) (json_loads : string -> option json)
    (interactive : bool) (w w' : world) :
  init json_dumps interactive w = (Ok tt, w') ->
  json_loads (json_dumps w'.(config)) = Some w'.(config) ->
  utf8_decodes (json_dumps w'.(config)) = true ->
  PyStr.has_char (ascii_of_nat 13) (json_dumps w'.(config)) = false ->
  _load_config json_loads w' = (Ok w'.(config), w').
Proof.
  intros E. apply load_saved. exact (init_saves json_dumps interactive w tt w' I E).
Qed.

Lemma init_then_load_witness :
  let w := Sample.world_with Sample.templates [] in
  let w' := (init Sample.dumps false w).2 in
  _load_config Sample.loads_default w' = (Ok w'.(config), w').
Proof.
  intros w w'.
  assert (E1 : (init Sample.dumps false w).1 = Ok tt) by (vm_compute; reflexivity).
  assert (E : init Sample.dumps false w = (Ok tt, w'))
    by (rewrite <- E1; apply surjective_pairing).
  apply (init_then_load Sample.dumps Sample.loads_default false w w' E);
    vm_compute; reflexivity.
Defined.

End ConfigPersist.

(* ===================================================================== *)
(** * What a successful CA operation leaves behind *)
(* ===================================================================== *)

Module Traces.
Import Effects MonadFacts.

(** ** Successful steps, inverted *)

Lemma print_ok (s : string) (w w1 : world) (a : unit) :
  print s w = (Ok a, w1) -> w1 = set_stdout w (w.(stdout) ++ [s]).
Proof. by inversion 1. Qed.

Lemma eprint_ok (s : string) (w w1 : world) (a : unit) :
  eprint s w = (Ok a, w1) -> w1 = set_stderr w (w.(stderr) ++ [s]).
Proof. by inversion 1. Qed.

Lemma gets_ok {A} (f : world -> A) (w w1 : world) (a : A) :
  gets f w = (Ok a, w1) -> a = f w /\ w1 = w.
Proof. by inversion 1. Qed.

Lemma ret_ok {A} (x : A) (w w1 : world) (a : A) :
  mret (M:=M) x w = (Ok a, w1) -> a = x /\ w1 = w.
Proof. by inversion 1. Qed.

Lemma raise_ok {A} (e : exn) (w w1 : world) (a : A) :
  raise (A:=A) e w = (Ok a, w1) -> False.
Proof. by inversion 1. Qed.

Lemma cfg_get_ok (k : string) (w w1 : world) (v : json) :
  cfg_get k w = (Ok v, w1) ->
  w1 = w /\ exists kvs, w.(config) = JObj kvs /\ assoc k kvs = Some v.
Proof.
  unfold cfg_get. destruct (config w) as [| | | | |kvs] eqn:Ec; try by inversion 1.
  all: try destruct (assoc k _) eqn:Ea; inversion 1; subst; eauto.
Qed.

Lemma chmod_ok (p : path) (mode : Z) (w w1 : world) (a : unit) :
  chmod p mode w = (Ok a, w1) -> w1 = set_modes w (<[p:=mode]> w.(modes)).
Proof. unfold chmod. case_match; by inversion 1. Qed.

Lemma mkdir_ok (p : path) (w w1 : world) (a : unit) :
  mkdir p w = (Ok a, w1) -> is_dir w1 p = true /\ exists ds, w1 = set_dirs w ds /\ w.(dirs) ⊆ ds.
Proof.
  unfold mkdir. repeat case_match; intros E; try discriminate E; injection E as <- <-.
  - split; [done|]. exists (dirs w). split; [by destruct w|done].
  - split; [|exists ({[p]} ∪ dirs w); split; [done|set_solver]].
    unfold is_dir. cbn. apply orb_true_iff. right. apply bool_decide_eq_true. set_solver.
Qed.

Lemma write_ok (p : path) (s : string) (w w1 : world) (a : unit) :
  write_text p s w = (Ok a, w1) -> w1 = set_files w (<[p:=s]> w.(files)).
Proof. unfold write_text. repeat case_match; by inversion 1. Qed.

Lemma read_ok (p : path) (w w1 : world) (s : string) :
  read_text p w = (Ok s, w1) ->
  w1 = w /\ exists c, w.(files) !! p = Some c /\ s = translate_newlines c.
Proof. unfold read_text. repeat case_match; inversion 1; subst; eauto. Qed.

Lemma input_ok (prompt : string) (w w1 : world) (a : string) :
  input prompt w = (Ok a, w1) ->
  exists rest, w.(stdin) = a :: rest
  /\ w1 = set_stdin (set_stdout w (w.(stdout) ++ [prompt])) rest.
Proof.
  unfold input, mbind, M_bind, print, modify, read_line. cbn.
  destruct (stdin w) as [|l rest]; inversion 1; subst; eauto.
Qed.

Lemma run_openssl_ok (tool : list string -> gmap (list string) string ->
                             proc_result * gmap (list string) string)
    (args : list string) (w w1 : world) (r : proc_result) :
  _run_openssl tool args w = (Ok r, w1) ->
  let r0 := (tool ("openssl" :: args) w.(files)).1 in
  r = mkProc r0.(returncode) (translate_newlines r0.(proc_stdout))
             (translate_newlines r0.(proc_stderr))
  /\ w1 = set_calls (set_files (set_stdout w (w.(stdout) ++ ["→ Running: " +:+ PyStr.join " " ("openssl" :: args)]))
                               (tool ("openssl" :: args) w.(files)).2)
                    (w.(calls) ++ [("openssl" :: args)]).
Proof.
  unfold _run_openssl, bindM, mbind, M_bind, print, modify, subprocess_run. cbn.
  destruct (tool ("openssl" :: args) (files w)) as [r' fs']. cbn.
  destruct (negb (returncode r' =? 0)%Z); cbn; by inversion 1.
Qed.

(** ** Symbolic execution of a successful run *)

Ltac simp := cbn [files dirs modes stdin stdout stderr calls config cwd clock fqdn
  set_files set_dirs set_modes set_stdin set_stdout set_stderr set_calls set_config] in *.

Ltac prim Em :=
  lazymatch type of Em with
  | print _ _ = _ => apply print_ok in Em; subst; simp
  | eprint _ _ = _ => apply eprint_ok in Em; subst; simp
  | sys_exit _ _ = _ => apply raise_ok in Em; contradiction
  | gets _ _ = _ => apply gets_ok in Em as [? ?]; subst; simp
  | path_exists _ _ = _ => apply gets_ok in Em as [? ?]; subst; simp
  | mret _ _ = _ => apply ret_ok in Em as [? ?]; subst; simp
  | raise _ _ = _ => apply raise_ok in Em; contradiction
  | cfg_get _ _ = _ => let H := fresh "Hcfg" in
                       pose proof Em as H; apply cfg_get_ok in H as [? H]; subst; simp
  | chmod _ _ _ = _ => apply chmod_ok in Em; subst; simp
  | mkdir _ _ = _ => let d := fresh "Hdir" in let ds := fresh "ds" in
                     apply mkdir_ok in Em as (d & ds & ? & ?); subst; simp
  | write_text _ _ _ = _ => apply write_ok in Em; subst; simp
  | read_text _ _ = _ => let c := fresh "c" in let Hc := fresh "Hc" in
                         apply read_ok in Em as (? & c & Hc & ?); subst; simp
  | input _ _ = _ => let rest := fresh "rest" in let Hin := fresh "Hin" in
                     apply input_ok in Em as (rest & Hin & ?); subst; simp
  | _run_openssl _ _ _ = _ => apply run_openssl_ok in Em as [? ?]; subst; simp
  end.

Ltac run E :=
  cbv beta iota zeta in E;
  lazymatch type of E with
  | bindM _ _ _ = _ => unfold bindM in E; run E
  | mbind _ _ _ = (Ok _, _) =>
      let a := fresh "a" in let w1 := fresh "w" in let Em := fresh "Em" in
      apply ok_inv in E as (a & w1 & Em & E); run Em; run E
  | _display_cert_info _ _ _ = _ => unfold _display_cert_info in E; run E
  | confirm_overwrite _ _ _ = _ => unfold confirm_overwrite in E; run E
  | _render_template _ _ _ _ = _ => unfold _render_template in E; run E
  | make_path _ _ = _ => unfold make_path in E; run E
  | (if ?b then _ else _) _ = _ => let Hb := fresh "Hb" in destruct b eqn:Hb; run E
  | _ => prim E
  end.










Lemma create_csr_ok (tool : list string -> gmap (list string) string ->
                                  proc_result * gmap (list string) string)
    (common_name cert_type : string) (w w' : world) (r : string * string) :
  create_csr tool common_name cert_type w = (Ok r, w') ->
  r = (path_str (CSR_DIR // (safe_name common_name +:+ "_" +:+ w.(clock) +:+ ".csr.pem")),
       path_str (PRIVATE_DIR // (safe_name common_name +:+ "_" +:+ w.(clock) +:+ ".key.pem")))
  /\ (exists san_dns san_ip, w.(stdin) = san_dns :: san_ip :: w'.(stdin))
  /\ w'.(calls) = w.(calls) ++
       [["openssl"; "genrsa"; "-out";
         path_str (PRIVATE_DIR // (safe_name common_name +:+ "_" +:+ w.(clock) +:+ ".key.pem"));
         "2048"];
        ["openssl"; "req"; "-config";
         path_str (CONF_DIR // ("csr_" +:+ safe_name common_name +:+ "_" +:+ w.(clock) +:+ ".cnf"));
         "-key";
         path_str (PRIVATE_DIR // (safe_name common_name +:+ "_" +:+ w.(clock) +:+ ".key.pem"));
         "-new"; "-sha256"; "-out";
         path_str (CSR_DIR // (safe_name common_name +:+ "_" +:+ w.(clock) +:+ ".csr.pem"))]]
  /\ w'.(modes) !! (PRIVATE_DIR // (safe_name common_name +:+ "_" +:+ w.(clock) +:+ ".key.pem"))
     = Some 256%Z.
Proof.
  intros E. unfold create_csr in E. run E.
  split; [reflexivity|]. split; [eauto|].
  split; [by rewrite <- app_assoc|]. apply lookup_insert_eq.
Qed.

(** When [create_csr] returns normally, it returns the paths of the CSR
    and of the key, both named after the sanitised common name and the
    timestamp; it has read the two SAN lines from standard input, run
    [genrsa] and then [req] with the generated configuration, and left
    the key with mode 0o400. *)
Theorem create_csr_success (tool : list string -> gmap (list string) string ->
                                  proc_result * gmap (list string) string)
    (common_name cert_type : string) (w w' : world) (r : string * string) :
  create_csr tool common_name cert_type w = (Ok r, w') ->
  r = (path_str (CSR_DIR // (safe_name common_name +:+ "_" +:+ w.(clock) +:+ ".csr.pem")),
       path_str (PRIVATE_DIR // (safe_name common_name +:+ "_" +:+ w.(clock) +:+ ".key.pem")))
  /\ (exists san_dns san_ip, w.(stdin) = san_dns :: san_ip :: w'.(stdin))
  /\ w'.(calls) = w.(calls) ++
       [["openssl"; "genrsa"; "-out";
         path_str (PRIVATE_DIR // (safe_name common_name +:+ "_" +:+ w.(clock) +:+ ".key.pem"));
         "2048"];
        ["openssl"; "req"; "-config";
         path_str (CONF_DIR // ("csr_" +:+ safe_name common_name +:+ "_" +:+ w.(clock) +:+ ".cnf"));
         "-key";
         path_str (PRIVATE_DIR // (safe_name common_name +:+ "_" +:+ w.(clock) +:+ ".key.pem"));
         "-new"; "-sha256"; "-out";
         path_str (CSR_DIR // (safe_name common_name +:+ "_" +:+ w.(clock) +:+ ".csr.pem"))]]
  /\ w'.(modes) !! (PRIVATE_DIR // (safe_name common_name +:+ "_" +:+ w.(clock) +:+ ".key.pem"))
     = Some 256%Z.
Proof. apply create_csr_ok. Qed.

Lemma create_csr_success_witness :
  let w := Sample.world_with Sample.templates ["app.example.com"; ""] in
  let key := PRIVATE_DIR // (safe_name "*.example.com" +:+ "_" +:+ w.(clock) +:+ ".key.pem") in
  let csr := CSR_DIR // (safe_name "*.example.com" +:+ "_" +:+ w.(clock) +:+ ".csr.pem") in
  let w' := (create_csr Sample.tool_out "*.example.com" "server" w).2 in
  create_csr Sample.tool_out "*.example.com" "server" w = (Ok (path_str csr, path_str key), w')
  /\ (exists san_dns san_ip, w.(stdin) = san_dns :: san_ip :: w'.(stdin))
  /\ w'.(calls) = w.(calls) ++
       [["openssl"; "genrsa"; "-out"; path_str key; "2048"];
        ["openssl"; "req"; "-config";
         path_str (CONF_DIR // ("csr_" +:+ safe_name "*.example.com" +:+ "_" +:+ w.(clock) +:+ ".cnf"));
         "-key"; path_str key; "-new"; "-sha256"; "-out"; path_str csr]]
  /\ w'.(modes) !! key = Some 256%Z.
Proof.
  intros w key csr w'.
  assert (E1 : (create_csr Sample.tool_out "*.example.com" "server" w).1
               = Ok (path_str csr, path_str key)) by (vm_compute; reflexivity).
  assert (E : create_csr Sample.tool_out "*.example.com" "server" w
              = (Ok (path_str csr, path_str key), w'))
    by (rewrite <- E1; apply surjective_pairing).
  split; [exact E|].
  exact (proj2 (create_csr_success Sample.tool_out "*.example.com" "server" w w' _ E)).
Defined.

End Traces.
